(** * The [useAuth] hook of movie-web: login, logout, register, restore

    A shallow embedding of [src/hooks/auth/useAuth.ts].  The four callbacks
    of the hook are asynchronous functions that talk to three groups of
    collaborators: the crypto module, the remote account service, and the
    session store of [useAuthData].  Each callback is embedded as a finite
    tree of calls (one node per call the source makes, in source order);
    the tree is then run against an arbitrary environment, which answers
    every call either with a value or with an exception. *)

From Stdlib Require Import String List Bool Arith Lia DecimalString.
Import ListNotations.
Open Scope string_scope.

(** ** Data *)

(** A [Uint8Array]. *)
Definition bytes := list Byte.byte.

(** What a rejected promise or a [throw] carries. *)
Definition err := string.

Inductive result (A : Type) : Type :=
| Ok (a : A)
| Err (e : err).
Arguments Ok {A} a.
Arguments Err {A} e.

Definition is_ok {A} (r : result A) : bool :=
  match r with Ok _ => true | Err _ => false end.

Record Profile := { colorA : string; colorB : string; icon : string }.

Module RegistrationData.
Record UserData := { device : string; profile : Profile }.
Record t := { mnemonic : string; userData : UserData }.
End RegistrationData.

Module LoginData.
Record UserData := { device : string }.
Record t := { mnemonic : string; userData : UserData }.
End LoginData.

(** Modelled from the spec: the key material returned by [keysFromMnemonic]
    (the crypto module is not among the sources).  The hook reads
    [publicKey] and [seed]; the private key is the third component the
    data model lists. *)
Record Keys := { publicKey : bytes; privateKey : bytes; seed : bytes }.

(** Modelled from the spec: the shapes exchanged with the remote service
    (section 6), with the fields the hook reads or writes under the names
    the source uses. *)
Record ChallengeTokenResponse := { challenge : string }.

Record UserResponse := { user_id : string; user_profile : Profile }.

Record SignedChallenge := { code : string; signature : string }.

Module LoginInput.
Record t := { challenge : SignedChallenge; publicKey : string; device : string }.
End LoginInput.

Module RegisterInput.
Record t := { challenge : SignedChallenge; publicKey : string;
              device : string; profile : Profile }.
End RegisterInput.

Module LoginResponse.
Record t := { token : string; sessionId : string }.
End LoginResponse.

Module RegisterResponse.
Record t := { token : string; sessionId : string; user : UserResponse }.
End RegisterResponse.

Definition Bookmarks := list string.
Definition Progress := list string.

(** Modelled from the spec: the account record held by the auth store
    ([stores/auth] is not among the sources).  The hook reads [token],
    [sessionId] and [profile]; the data model adds the account identifier
    and the symmetric seed kept for later decryption. *)
Module Account.
Record t := { token : string; sessionId : string; userId : string;
              seed : string; profile : Profile }.
End Account.

(** The first argument of [userDataLogin] is the response object itself:
    the login response in [login], the register response in [register]. *)
Inductive SessionResult :=
| LoginResult (r : LoginResponse.t)
| RegisterResult (r : RegisterResponse.t).

(** ** Calls out of the hook *)

(** [@/backend/accounts/crypto], the awaited functions. *)
Inductive crypto_call :=
| KeysFromMnemonic (mnemonic : string)
| SignChallenge (keys : Keys) (challengeCode : string)
| EncryptData (data : string) (secret : bytes).

(** [@/backend/accounts/{auth,login,register,user}]. *)
Inductive remote_call :=
| GetLoginChallengeToken (url publicKey : string)
| LoginAccount (url : string) (data : LoginInput.t)
| GetRegisterChallengeToken (url : string)
| RegisterAccount (url : string) (data : RegisterInput.t)
| GetUser (url token : string)
| GetBookmarks (url : string) (account : Account.t)
| GetProgress (url : string) (account : Account.t)
| RemoveSession (url token sessionId : string).

(** [useAuthData()]: [login], [logout], [syncData]. *)
Inductive collab_call :=
| UserDataLogin (r : SessionResult) (user : UserResponse) (seedBase64 : string)
| UserDataLogout
| SyncData (user : UserResponse) (progress : Progress) (bookmarks : Bookmarks).

Inductive call :=
| Crypto (c : crypto_call)
| Remote (c : remote_call)
| Collab (c : collab_call).

Definition crypto_answer (c : crypto_call) : Type :=
  match c with
  | KeysFromMnemonic _ => Keys
  | SignChallenge _ _ => string
  | EncryptData _ _ => string
  end.

Definition remote_answer (c : remote_call) : Type :=
  match c with
  | GetLoginChallengeToken _ _ => ChallengeTokenResponse
  | LoginAccount _ _ => LoginResponse.t
  | GetRegisterChallengeToken _ => ChallengeTokenResponse
  | RegisterAccount _ _ => RegisterResponse.t
  | GetUser _ _ => UserResponse
  | GetBookmarks _ _ => Bookmarks
  | GetProgress _ _ => Progress
  | RemoveSession _ _ _ => unit
  end.

Definition answer (c : call) : Type :=
  match c with
  | Crypto c => crypto_answer c
  | Remote c => remote_answer c
  | Collab _ => unit
  end.

(** ** Programs

    A callback is a tree: it returns, throws, or makes a call and goes on
    with whatever the call produced (a value, or an exception). *)
Inductive prog (A : Type) : Type :=
| Ret (a : A)
| Throw (e : err)
| Vis (c : call) (k : result (answer c) -> prog A).
Arguments Ret {A} a.
Arguments Throw {A} e.
Arguments Vis {A} c k.

(** [const x = await f(..); rest]: a rejection leaves the function. *)
Definition await_then {A} (c : call) (k : answer c -> prog A) : prog A :=
  Vis c (fun r => match r with Ok x => k x | Err e => Throw e end).

(** [try { await f(..) } catch { }; rest]: the outcome is dropped. *)
Definition try_await {A} (c : call) (k : prog A) : prog A :=
  Vis c (fun _ => k).

(** [f(..); rest] for a synchronous collaborator: a [throw] leaves the
    function; there is no suspension before the call. *)
Definition invoke {A} (c : call) (k : prog A) : prog A :=
  Vis c (fun r => match r with Ok _ => k | Err e => Throw e end).

Notation "x <- 'await' c ;; k" := (await_then c (fun x => k))
  (at level 61, c at next level, right associativity).
Notation "'await' c ;; k" := (await_then c (fun _ => k))
  (at level 61, c at next level, right associativity).

(** The two encoders of the crypto module are synchronous and total. *)
Class Encoding := {
  bytesToBase64 : bytes -> string;
  bytesToBase64Url : bytes -> string
}.

(** ** The hook *)

Section Hook.
Context `{Encoding}.
Variable backendUrl : string.
Variable currentAccount : option Account.t.

Definition login (loginData : LoginData.t) : prog unit :=
  keys <- await Crypto (KeysFromMnemonic (LoginData.mnemonic loginData)) ;;
  let publicKeyBase64Url := bytesToBase64Url (publicKey keys) in
  tok <- await Remote (GetLoginChallengeToken backendUrl publicKeyBase64Url) ;;
  let challenge := challenge tok in
  signature <- await Crypto (SignChallenge keys challenge) ;;
  device <- await Crypto (EncryptData
              (LoginData.device (LoginData.userData loginData)) (seed keys)) ;;
  loginResult <- await Remote (LoginAccount backendUrl
    {| LoginInput.challenge := {| code := challenge; signature := signature |};
       LoginInput.publicKey := publicKeyBase64Url;
       LoginInput.device := device |}) ;;
  user <- await Remote (GetUser backendUrl (LoginResponse.token loginResult)) ;;
  let seedBase64 := bytesToBase64 (seed keys) in
  await Collab (UserDataLogin (LoginResult loginResult) user seedBase64) ;;
  Ret tt.

Definition logout : prog unit :=
  match currentAccount with
  | None => Ret tt
  | Some currentAccount =>
      try_await (Remote (RemoveSession backendUrl
                   (Account.token currentAccount)
                   (Account.sessionId currentAccount)))
        (invoke (Collab UserDataLogout)
           (Ret tt))
  end.

Definition register (registerData : RegistrationData.t) : prog unit :=
  tok <- await Remote (GetRegisterChallengeToken backendUrl) ;;
  let challenge := challenge tok in
  keys <- await Crypto (KeysFromMnemonic (RegistrationData.mnemonic registerData)) ;;
  signature <- await Crypto (SignChallenge keys challenge) ;;
  device <- await Crypto (EncryptData
              (RegistrationData.device (RegistrationData.userData registerData))
              (seed keys)) ;;
  registerResult <- await Remote (RegisterAccount backendUrl
    {| RegisterInput.challenge := {| code := challenge; signature := signature |};
       RegisterInput.publicKey := bytesToBase64Url (publicKey keys);
       RegisterInput.device := device;
       RegisterInput.profile :=
         RegistrationData.profile (RegistrationData.userData registerData) |}) ;;
  await Collab (UserDataLogin (RegisterResult registerResult)
                  (RegisterResponse.user registerResult)
                  (bytesToBase64 (seed keys))) ;;
  Ret tt.

Definition restore : prog unit :=
  match currentAccount with
  | None => Ret tt
  | Some currentAccount =>
      user <- await Remote (GetUser backendUrl (Account.token currentAccount)) ;;
      bookmarks <- await Remote (GetBookmarks backendUrl currentAccount) ;;
      progress <- await Remote (GetProgress backendUrl currentAccount) ;;
      invoke (Collab (SyncData user progress bookmarks))
        (Ret tt)
  end.

(** [!!useAuthStore((s) => s.account)] and [s.account?.profile]. *)
Definition loggedIn : bool :=
  match currentAccount with Some _ => true | None => false end.

Definition profile : option Profile :=
  match currentAccount with
  | Some a => Some (Account.profile a)
  | None => None
  end.
End Hook.

(** The auth store, as far as the hook reads it: [s.account]. *)
Record AuthStore := { account : option Account.t }.

(** What [useAuth()] returns on one render. *)
Record Auth := {
  auth_loggedIn : bool;
  auth_profile : option Profile;
  auth_login : LoginData.t -> prog unit;
  auth_logout : prog unit;
  auth_register : RegistrationData.t -> prog unit;
  auth_restore : prog unit
}.

Definition useAuth `{Encoding} (s : AuthStore) (backendUrl : string) : Auth :=
  let currentAccount := account s in
  {| auth_loggedIn := loggedIn currentAccount;
     auth_profile := profile currentAccount;
     auth_login := login backendUrl;
     auth_logout := logout backendUrl currentAccount;
     auth_register := register backendUrl;
     auth_restore := restore backendUrl currentAccount |}.

(** ** Running a callback

    The world outside the hook: the state [S] behind the crypto module and
    the remote service, and the auth store.  Crypto and remote calls act on
    [S] only; the session-store collaborator may touch everything. *)
Record World (S : Type) := { ext : S; store : AuthStore }.
Arguments ext {S} w.
Arguments store {S} w.

Record Env (S : Type) := {
  crypto_h : forall c : crypto_call, S -> result (crypto_answer c) * S;
  remote_h : forall c : remote_call, S -> result (remote_answer c) * S;
  collab_h : collab_call -> World S -> result unit * World S
}.
Arguments crypto_h {S} e c s.
Arguments remote_h {S} e c s.
Arguments collab_h {S} e c w.

Definition handle {S} (E : Env S) (c : call) (w : World S)
  : result (answer c) * World S :=
  match c as c0 return result (answer c0) * World S with
  | Crypto c => let (r, s) := crypto_h E c (ext w) in
                (r, {| ext := s; store := store w |})
  | Remote c => let (r, s) := remote_h E c (ext w) in
                (r, {| ext := s; store := store w |})
  | Collab c => collab_h E c w
  end.

(** One line of the log: the call and what came back. *)
Inductive entry := Entry (c : call) (r : result (answer c)).

Definition call_of (e : entry) : call := match e with Entry c _ => c end.

Definition failed (e : entry) : bool :=
  match e with Entry _ r => negb (is_ok r) end.

Definition error_of (e : entry) : option err :=
  match e with Entry _ (Err x) => Some x | Entry _ (Ok _) => None end.

Record Run (S A : Type) := {
  outcome : result A;
  final : World S;
  trace : list entry
}.
Arguments outcome {S A} r.
Arguments final {S A} r.
Arguments trace {S A} r.

Fixpoint run {S A} (E : Env S) (p : prog A) (w : World S) : Run S A :=
  match p with
  | Ret a => {| outcome := Ok a; final := w; trace := [] |}
  | Throw e => {| outcome := Err e; final := w; trace := [] |}
  | Vis c k =>
      let (r, w') := handle E c w in
      let rest := run E (k r) w' in
      {| outcome := outcome rest; final := final rest;
         trace := Entry c r :: trace rest |}
  end.

(** *** Reading a log *)

Definition is_remote (c : call) : bool :=
  match c with Remote _ => true | _ => false end.

Definition is_collab (c : call) : bool :=
  match c with Collab _ => true | _ => false end.

Definition is_derive (c : call) : bool :=
  match c with Crypto (KeysFromMnemonic _) => true | _ => false end.

Definition is_submit (c : call) : bool :=
  match c with
  | Remote (LoginAccount _ _) | Remote (RegisterAccount _ _) => true
  | _ => false
  end.

Definition is_login_handler (c : call) : bool :=
  match c with Collab (UserDataLogin _ _ _) => true | _ => false end.

Fixpoint remote_calls (t : list entry) : list remote_call :=
  match t with
  | [] => []
  | Entry (Remote c) _ :: t' => c :: remote_calls t'
  | _ :: t' => remote_calls t'
  end.

Fixpoint collab_calls (t : list entry) : list collab_call :=
  match t with
  | [] => []
  | Entry (Collab c) _ :: t' => c :: collab_calls t'
  | _ :: t' => collab_calls t'
  end.

Fixpoint errors (t : list entry) : list err :=
  match t with
  | [] => []
  | e :: t' => match error_of e with
               | Some x => x :: errors t'
               | None => errors t'
               end
  end.

(** Key derivation was attempted and rejected. *)
Definition derivation_failed (t : list entry) : bool :=
  existsb (fun e => is_derive (call_of e) && failed e) t.

(** Some crypto or remote step was rejected. *)
Definition step_failed (t : list entry) : bool :=
  existsb (fun e => negb (is_collab (call_of e)) && failed e) t.

(** *** What the remote side can learn

    The public part of what a call brought back: the public key of derived
    key material (not its private key, not its seed), a signature, a
    ciphertext, and whatever the service or the session store answered.  A
    rejection is seen as such. *)
Inductive observable :=
| ORejected
| OKeys (publicKey : bytes)
| OText (s : string)
| OChallenge (c : ChallengeTokenResponse)
| OLogin (r : LoginResponse.t)
| ORegister (r : RegisterResponse.t)
| OUser (u : UserResponse)
| OItems (l : list string)
| ODone.

Definition observe_ok (c : call) : answer c -> observable :=
  match c as c0 return answer c0 -> observable with
  | Crypto (KeysFromMnemonic _) => fun k => OKeys (publicKey k)
  | Crypto (SignChallenge _ _) => OText
  | Crypto (EncryptData _ _) => OText
  | Remote (GetLoginChallengeToken _ _) => OChallenge
  | Remote (LoginAccount _ _) => OLogin
  | Remote (GetRegisterChallengeToken _) => OChallenge
  | Remote (RegisterAccount _ _) => ORegister
  | Remote (GetUser _ _) => OUser
  | Remote (GetBookmarks _ _) => OItems
  | Remote (GetProgress _ _) => OItems
  | Remote (RemoveSession _ _ _) => fun _ => ODone
  | Collab _ => fun _ => ODone
  end.

Definition observe (e : entry) : observable :=
  match e with
  | Entry c (Ok x) => observe_ok c x
  | Entry _ (Err _) => ORejected
  end.

(** Two accounts that differ at most in the stored seed. *)
Definition same_credentials (a b : Account.t) : Prop :=
  Account.token a = Account.token b /\
  Account.sessionId a = Account.sessionId b /\
  Account.userId a = Account.userId b /\
  Account.profile a = Account.profile b.

(** ** Overlapping calls

    An asynchronous function runs until its next call and is resumed with
    the answer later; in between, another callback may run.  A schedule
    says whose turn it is ([true]: the first callback, [false]: the
    second); a callback that is already over lets its turn pass. *)
Definition step {S A} (E : Env S) (p : prog A) (w : World S)
  : prog A * World S * list entry :=
  match p with
  | Vis c k => let (r, w') := handle E c w in (k r, w', [Entry c r])
  | _ => (p, w, [])
  end.

Record Overlap (S : Type) := {
  first : prog unit;
  second : prog unit;
  world : World S;
  log : list (bool * entry)
}.
Arguments first {S} o.
Arguments second {S} o.
Arguments world {S} o.
Arguments log {S} o.

Fixpoint interleave {S} (E : Env S) (sched : list bool)
    (p q : prog unit) (w : World S) : Overlap S :=
  match sched with
  | [] => {| first := p; second := q; world := w; log := [] |}
  | true :: sched' =>
      let '(p', w', es) := step E p w in
      let o := interleave E sched' p' q w' in
      {| first := first o; second := second o; world := world o;
         log := map (pair true) es ++ log o |}
  | false :: sched' =>
      let '(q', w', es) := step E q w in
      let o := interleave E sched' p q' w' in
      {| first := first o; second := second o; world := world o;
         log := map (pair false) es ++ log o |}
  end.

(** One of the two callbacks, as the schedule left it. *)
Definition side {S} (who : bool) (o : Overlap S) : prog unit :=
  if who then first o else second o.

(** The log of one of the two callbacks. *)
Fixpoint log_of (who : bool) (l : list (bool * entry)) : list entry :=
  match l with
  | [] => []
  | (b, e) :: l' => if Bool.eqb b who then e :: log_of who l' else log_of who l'
  end.

Definition count_calls (f : call -> bool) (t : list entry) : nat :=
  length (filter (fun e => f (call_of e)) t).

Definition returned {A} (p : prog A) : bool :=
  match p with Ret _ => true | _ => false end.

(** [p] makes at most [n] more calls that satisfy [f], and exactly [n] of
    them on every way it can still return. *)
Fixpoint returns_after {A} (f : call -> bool) (p : prog A) (n : nat) : Prop :=
  match p with
  | Ret _ => n = 0
  | Throw _ => True
  | Vis c k =>
      if f c
      then match n with
           | 0 => False
           | S m => forall r, returns_after f (k r) m
           end
      else forall r, returns_after f (k r) n
  end.

(** The callback has come to its end, by returning or by throwing. *)
Definition over {A} (p : prog A) : bool :=
  match p with Vis _ _ => false | _ => true end.

(** [p] comes to its end after at most [n] calls, whatever they answer. *)
Fixpoint ends_within {A} (n : nat) (p : prog A) : Prop :=
  match p with
  | Vis c k => match n with
               | 0 => False
               | S m => forall r, ends_within m (k r)
               end
  | _ => True
  end.

(** How many turns a schedule gives to one of the two callbacks. *)
Definition turns (who : bool) (sched : list bool) : nat :=
  length (filter (Bool.eqb who) sched).

(** [p] throws nothing of its own: an exception it ends with is the one
    its last call was answered with. *)
Fixpoint relays {A} (p : prog A) : Prop :=
  match p with
  | Ret _ => True
  | Throw _ => False
  | Vis c k => forall r, (exists e, r = Err e /\ k r = Throw e) \/ relays (k r)
  end.

(** ** A session store and a service to run against *)

Definition result_token (r : SessionResult) : string :=
  match r with
  | LoginResult r => LoginResponse.token r
  | RegisterResult r => RegisterResponse.token r
  end.

Definition result_sessionId (r : SessionResult) : string :=
  match r with
  | LoginResult r => LoginResponse.sessionId r
  | RegisterResult r => RegisterResponse.sessionId r
  end.

(** Modelled from the spec: the session-store collaborator ([useAuthData]
    is not among the sources).  [onLogin(session, user, encodedSeed)]
    installs the session (account identifier, bearer token, session
    identifier, seed), [onLogout()] clears it, [onRestore] leaves it as it
    is. *)
Definition session_store {S} (c : collab_call) (w : World S)
  : result unit * World S :=
  match c with
  | UserDataLogin r user seedBase64 =>
      (Ok tt,
       {| ext := ext w;
          store := {| account := Some
            {| Account.token := result_token r;
               Account.sessionId := result_sessionId r;
               Account.userId := user_id user;
               Account.seed := seedBase64;
               Account.profile := user_profile user |} |} |})
  | UserDataLogout => (Ok tt, {| ext := ext w; store := {| account := None |} |})
  | SyncData _ _ _ => (Ok tt, w)
  end.

Module Demo.
#[local] Instance hex : Encoding := {|
  bytesToBase64 := fun b => "b64:" ++ string_of_list_byte b;
  bytesToBase64Url := fun b => "b64url:" ++ string_of_list_byte b
|}.

Definition phrase : string :=
  "legal winner thank year wave sausage worth useful legal winner thank yellow".

Definition keys : Keys :=
  {| publicKey := [Byte.x50; Byte.x4b];
     privateKey := [Byte.x53; Byte.x4b];
     seed := [Byte.x53; Byte.x44] |}.

Definition colors : Profile :=
  {| colorA := "#2E65CF"; colorB := "#7652DD"; icon := "user" |}.

Definition someone : UserResponse :=
  {| user_id := "u1"; user_profile := colors |}.

Definition crypto (c : crypto_call) (n : nat) : result (crypto_answer c) * nat :=
  match c as c0 return result (crypto_answer c0) * nat with
  | KeysFromMnemonic m =>
      (if String.eqb m phrase then Ok keys else Err "InvalidMnemonic", n)
  | SignChallenge _ c => (Ok ("sig:" ++ c), n)
  | EncryptData d _ => (Ok ("enc:" ++ d), n)
  end.

Definition numeral (n : nat) : string :=
  DecimalString.NilZero.string_of_uint (Nat.to_uint n).

(** A service that issues a fresh session on every login; the state counts
    the sessions issued so far. *)
Definition service (c : remote_call) (n : nat) : result (remote_answer c) * nat :=
  match c as c0 return result (remote_answer c0) * nat with
  | GetLoginChallengeToken _ _ => (Ok {| challenge := "c1" |}, n)
  | LoginAccount _ _ =>
      (Ok {| LoginResponse.token := "token" ++ numeral n;
             LoginResponse.sessionId := "session" ++ numeral n |}, S n)
  | GetRegisterChallengeToken _ => (Ok {| challenge := "c2" |}, n)
  | RegisterAccount _ _ =>
      (Ok {| RegisterResponse.token := "token" ++ numeral n;
             RegisterResponse.sessionId := "session" ++ numeral n;
             RegisterResponse.user := someone |}, S n)
  | GetUser _ _ => (Ok someone, n)
  | GetBookmarks _ _ => (Ok ["tt0111161"], n)
  | GetProgress _ _ => (Ok ["tt0068646"], n)
  | RemoveSession _ _ _ => (Ok tt, n)
  end.

(** The same client with the network down. *)
Definition unreachable (c : remote_call) (n : nat)
  : result (remote_answer c) * nat := (Err "NetworkError", n).

Definition online : Env nat :=
  {| crypto_h := crypto; remote_h := service; collab_h := session_store |}.

Definition offline : Env nat :=
  {| crypto_h := crypto; remote_h := unreachable; collab_h := session_store |}.

Definition url : string := "https://backend.example".

Definition fresh : World nat := {| ext := 0; store := {| account := None |} |}.

Definition member : Account.t :=
  {| Account.token := "token0"; Account.sessionId := "session0";
     Account.userId := "u1"; Account.seed := "b64:SD";
     Account.profile := colors |}.

Definition signed_in : World nat :=
  {| ext := 1; store := {| account := Some member |} |}.

Definition good : LoginData.t :=
  {| LoginData.mnemonic := phrase;
     LoginData.userData := {| LoginData.device := "laptop" |} |}.

Definition bad : LoginData.t :=
  {| LoginData.mnemonic := "not a phrase";
     LoginData.userData := {| LoginData.device := "laptop" |} |}.

Definition newcomer : RegistrationData.t :=
  {| RegistrationData.mnemonic := phrase;
     RegistrationData.userData :=
       {| RegistrationData.device := "laptop";
          RegistrationData.profile := colors |} |}.

Definition bad_newcomer : RegistrationData.t :=
  {| RegistrationData.mnemonic := "not a phrase";
     RegistrationData.userData :=
       {| RegistrationData.device := "laptop";
          RegistrationData.profile := colors |} |}.

(** Another phrase, and a crypto module that derives from it key material
    with the public key of [keys] but another private key and seed. *)
Definition other_phrase : string :=
  "letter advice cage absurd amount doctor acoustic avoid letter advice cage above".

Definition other_keys : Keys :=
  {| publicKey := [Byte.x50; Byte.x4b];
     privateKey := [Byte.x73; Byte.x6b];
     seed := [Byte.x73; Byte.x64] |}.

Definition other_crypto (c : crypto_call) (n : nat)
  : result (crypto_answer c) * nat :=
  match c as c0 return result (crypto_answer c0) * nat with
  | KeysFromMnemonic m =>
      (if String.eqb m other_phrase then Ok other_keys
       else Err "InvalidMnemonic", n)
  | SignChallenge _ c => (Ok ("sig:" ++ c), n)
  | EncryptData d _ => (Ok ("enc:" ++ d), n)
  end.

Definition other_online : Env nat :=
  {| crypto_h := other_crypto; remote_h := service; collab_h := session_store |}.

Definition other_good : LoginData.t :=
  {| LoginData.mnemonic := other_phrase;
     LoginData.userData := {| LoginData.device := "laptop" |} |}.

(** [member] with another seed in the store. *)
Definition other_member : Account.t :=
  {| Account.token := "token0"; Account.sessionId := "session0";
     Account.userId := "u1"; Account.seed := "b64:sd";
     Account.profile := colors |}.

Definition other_signed_in : World nat :=
  {| ext := 1; store := {| account := Some other_member |} |}.

(** Two calls started back to back, resumed in turn. *)
Definition in_turn : list bool :=
  [true; false; true; false; true; false; true; false;
   true; false; true; false; true; false].
End Demo.

(** A handshake is either of the two callbacks that end by handing a
    session to the session store. *)
Inductive Handshake :=
| LoginWith (d : LoginData.t)
| RegisterWith (d : RegistrationData.t).

Definition start `{Encoding} (backendUrl : string) (h : Handshake) : prog unit :=
  match h with
  | LoginWith d => login backendUrl d
  | RegisterWith d => register backendUrl d
  end.

(** The remote calls a handshake has already made when it derives keys. *)
Definition calls_before_derivation (backendUrl : string) (h : Handshake)
  : list remote_call :=
  match h with
  | LoginWith _ => []
  | RegisterWith _ => [GetRegisterChallengeToken backendUrl]
  end.

Definition succeeded (e : entry) : bool := negb (failed e).

(** The four callbacks as one type, and a call of one of them on a render
    that has read the store [s]. *)
Inductive Operation :=
| OpLogin (d : LoginData.t)
| OpLogout
| OpRegister (d : RegistrationData.t)
| OpRestore.

Definition perform `{Encoding} (s : AuthStore) (backendUrl : string)
    (op : Operation) : prog unit :=
  match op with
  | OpLogin d => auth_login (useAuth s backendUrl) d
  | OpLogout => auth_logout (useAuth s backendUrl)
  | OpRegister d => auth_register (useAuth s backendUrl) d
  | OpRestore => auth_restore (useAuth s backendUrl)
  end.

Definition is_restore (op : Operation) : bool :=
  match op with OpRestore => true | _ => false end.

(** Two calls of the same callback whose inputs differ at most in the
    mnemonic and in the device name (which travels encrypted only). *)
Definition same_public_input (op1 op2 : Operation) : Prop :=
  match op1, op2 with
  | OpLogin _, OpLogin _ => True
  | OpRegister d1, OpRegister d2 =>
      RegistrationData.profile (RegistrationData.userData d1)
      = RegistrationData.profile (RegistrationData.userData d2)
  | OpLogout, OpLogout => True
  | OpRestore, OpRestore => True
  | _, _ => False
  end.

(** Two stores whose accounts differ at most in the stored seed. *)
Definition same_public_store (s1 s2 : AuthStore) : Prop :=
  match account s1, account s2 with
  | None, None => True
  | Some a, Some b => same_credentials a b
  | _, _ => False
  end.

(** ** More ways to read a call, a log, an operation *)

(** The backend a remote call is addressed to: its first argument. *)
Definition url_of (c : remote_call) : string :=
  match c with
  | GetLoginChallengeToken url _ => url
  | LoginAccount url _ => url
  | GetRegisterChallengeToken url => url
  | RegisterAccount url _ => url
  | GetUser url _ => url
  | GetBookmarks url _ => url
  | GetProgress url _ => url
  | RemoveSession url _ _ => url
  end.

Definition is_challenge_request (c : remote_call) : bool :=
  match c with
  | GetLoginChallengeToken _ _ | GetRegisterChallengeToken _ => true
  | _ => false
  end.

Definition is_sign_or_encrypt (c : call) : bool :=
  match c with
  | Crypto (SignChallenge _ _) | Crypto (EncryptData _ _) => true
  | _ => false
  end.

Definition is_user_fetch (c : call) : bool :=
  match c with Remote (GetUser _ _) => true | _ => false end.

Definition is_revoke (c : call) : bool :=
  match c with Remote (RemoveSession _ _ _) => true | _ => false end.

(** Signing or encryption was attempted and rejected. *)
Definition crypto_failed (t : list entry) : bool :=
  existsb (fun e => is_sign_or_encrypt (call_of e) && failed e) t.

(** The user fetch was attempted and rejected. *)
Definition user_fetch_failed (t : list entry) : bool :=
  existsb (fun e => is_user_fetch (call_of e) && failed e) t.

(** The submission was made and accepted. *)
Definition submission_accepted (t : list entry) : bool :=
  existsb (fun e => is_submit (call_of e) && succeeded e) t.

Definition is_logout (op : Operation) : bool :=
  match op with OpLogout => true | _ => false end.

Definition has_account (s : AuthStore) : bool :=
  match account s with Some _ => true | None => false end.

(** How many calls an operation makes at most, and how many of them go to
    the session store when it returns, on a render that has read [s]. *)
Definition calls_at_most (s : AuthStore) (op : Operation) : nat :=
  match op with
  | OpLogin _ => 7
  | OpRegister _ => 6
  | OpLogout => if has_account s then 2 else 0
  | OpRestore => if has_account s then 4 else 0
  end.

Definition collab_due (s : AuthStore) (op : Operation) : nat :=
  match op with
  | OpLogin _ | OpRegister _ => 1
  | OpLogout | OpRestore => if has_account s then 1 else 0
  end.

(** Two calls of the same callback. *)
Definition same_callback (op1 op2 : Operation) : Prop :=
  match op1, op2 with
  | OpLogin _, OpLogin _ => True
  | OpLogout, OpLogout => True
  | OpRegister _, OpRegister _ => True
  | OpRestore, OpRestore => True
  | _, _ => False
  end.

(** What the session store may get to know of an answer: its public part
    and, of derived key material, the seed as well. *)
Definition seed_of_ok (c : call) : answer c -> option bytes :=
  match c as c0 return answer c0 -> option bytes with
  | Crypto (KeysFromMnemonic _) => fun k => Some (seed k)
  | _ => fun _ => None
  end.

Definition local_view (e : entry) : observable * option bytes :=
  match e with
  | Entry c (Ok x) => (observe_ok c x, seed_of_ok c x)
  | Entry _ (Err _) => (ORejected, None)
  end.

(** More environments to run against. *)
Module Outage.
Import Demo.

(** A crypto module whose signing is rejected. *)
Definition no_signature (c : crypto_call) (n : nat)
  : result (crypto_answer c) * nat :=
  match c as c0 return result (crypto_answer c0) * nat with
  | KeysFromMnemonic m =>
      (if String.eqb m phrase then Ok keys else Err "InvalidMnemonic", n)
  | SignChallenge _ _ => (Err "SigningError", n)
  | EncryptData d _ => (Ok ("enc:" ++ d), n)
  end.

Definition unsigned : Env nat :=
  {| crypto_h := no_signature; remote_h := service; collab_h := session_store |}.

(** A service that accepts a login and then fails to deliver the user. *)
Definition no_user (c : remote_call) (n : nat) : result (remote_answer c) * nat :=
  match c as c0 return result (remote_answer c0) * nat with
  | GetUser _ _ => (Err "NetworkError", n)
  | c0 => service c0 n
  end.

Definition userless : Env nat :=
  {| crypto_h := crypto; remote_h := no_user; collab_h := session_store |}.

(** Key material for [other_phrase] with the public key and the seed of
    [keys] and another private key. *)
Definition reseeded_keys : Keys :=
  {| publicKey := [Byte.x50; Byte.x4b];
     privateKey := [Byte.x73; Byte.x6b];
     seed := [Byte.x53; Byte.x44] |}.

Definition reseeded_crypto (c : crypto_call) (n : nat)
  : result (crypto_answer c) * nat :=
  match c as c0 return result (crypto_answer c0) * nat with
  | KeysFromMnemonic m =>
      (if String.eqb m other_phrase then Ok reseeded_keys
       else Err "InvalidMnemonic", n)
  | SignChallenge _ c => (Ok ("sig:" ++ c), n)
  | EncryptData d _ => (Ok ("enc:" ++ d), n)
  end.

Definition reseeded : Env nat :=
  {| crypto_h := reseeded_crypto; remote_h := service;
     collab_h := session_store |}.

(** A login and a logout started back to back, resumed in turn. *)
Definition crossing : list bool :=
  [true; false; true; false; true; true; true; true; true].
End Outage.

(** ** The course of a run *)

Definition mnemonic_of (h : Handshake) : string :=
  match h with
  | LoginWith d => LoginData.mnemonic d
  | RegisterWith d => RegistrationData.mnemonic d
  end.

(** The log of a login in which every call is accepted, given what the
    calls answer: each call with the arguments the source builds from the
    input and from the answers before it. *)
Definition login_log `{Encoding} (url : string) (d : LoginData.t)
    (keys : Keys) (tok : ChallengeTokenResponse) (sig dev : string)
    (res : LoginResponse.t) (user : UserResponse) : list entry :=
  [ Entry (Crypto (KeysFromMnemonic (LoginData.mnemonic d))) (Ok keys);
    Entry (Remote (GetLoginChallengeToken url
                     (bytesToBase64Url (publicKey keys)))) (Ok tok);
    Entry (Crypto (SignChallenge keys (challenge tok))) (Ok sig);
    Entry (Crypto (EncryptData (LoginData.device (LoginData.userData d))
                     (seed keys))) (Ok dev);
    Entry (Remote (LoginAccount url
             {| LoginInput.challenge :=
                  {| code := challenge tok; signature := sig |};
                LoginInput.publicKey := bytesToBase64Url (publicKey keys);
                LoginInput.device := dev |})) (Ok res);
    Entry (Remote (GetUser url (LoginResponse.token res))) (Ok user);
    Entry (Collab (UserDataLogin (LoginResult res) user
                     (bytesToBase64 (seed keys)))) (Ok tt) ].

(** The same for register. *)
Definition register_log `{Encoding} (url : string) (d : RegistrationData.t)
    (tok : ChallengeTokenResponse) (keys : Keys) (sig dev : string)
    (res : RegisterResponse.t) : list entry :=
  [ Entry (Remote (GetRegisterChallengeToken url)) (Ok tok);
    Entry (Crypto (KeysFromMnemonic (RegistrationData.mnemonic d))) (Ok keys);
    Entry (Crypto (SignChallenge keys (challenge tok))) (Ok sig);
    Entry (Crypto (EncryptData
             (RegistrationData.device (RegistrationData.userData d))
             (seed keys))) (Ok dev);
    Entry (Remote (RegisterAccount url
             {| RegisterInput.challenge :=
                  {| code := challenge tok; signature := sig |};
                RegisterInput.publicKey := bytesToBase64Url (publicKey keys);
                RegisterInput.device := dev;
                RegisterInput.profile :=
                  RegistrationData.profile (RegistrationData.userData d) |}))
          (Ok res);
    Entry (Collab (UserDataLogin (RegisterResult res)
                     (RegisterResponse.user res)
                     (bytesToBase64 (seed keys)))) (Ok tt) ].

(** [t] runs along [course]: it is a beginning of it, except that it may
    end with the rejection of the call [course] makes at that place. *)
Fixpoint follows (t course : list entry) : Prop :=
  match t, course with
  | [], _ => True
  | e :: t', c :: course' =>
      (e = c /\ follows t' course')
      \/ (t' = [] /\ call_of e = call_of c /\ failed e = true)
  | _ :: _, [] => False
  end.

(** *** Reading answers off a log *)

Definition keys_of_ok (c : call) : answer c -> option Keys :=
  match c as c0 return answer c0 -> option Keys with
  | Crypto (KeysFromMnemonic _) => fun k => Some k
  | _ => fun _ => None
  end.

Definition challenge_of_ok (c : call) : answer c -> option string :=
  match c as c0 return answer c0 -> option string with
  | Remote (GetLoginChallengeToken _ _) => fun t => Some (challenge t)
  | Remote (GetRegisterChallengeToken _) => fun t => Some (challenge t)
  | _ => fun _ => None
  end.

Definition signature_of_ok (c : call) : answer c -> option string :=
  match c as c0 return answer c0 -> option string with
  | Crypto (SignChallenge _ _) => fun s => Some s
  | _ => fun _ => None
  end.

Definition ciphertext_of_ok (c : call) : answer c -> option string :=
  match c as c0 return answer c0 -> option string with
  | Crypto (EncryptData _ _) => fun s => Some s
  | _ => fun _ => None
  end.

Definition read_entry {A} (f : forall c, answer c -> option A) (e : entry)
  : option A :=
  match e with
  | Entry c (Ok x) => f c x
  | Entry _ (Err _) => None
  end.

Fixpoint first_answer {A} (f : forall c, answer c -> option A)
    (t : list entry) : option A :=
  match t with
  | [] => None
  | e :: t' => match read_entry f e with
               | Some a => Some a
               | None => first_answer f t'
               end
  end.

(** Two runs in which key derivation, the challenge request, signing and
    encryption were answered alike. *)
Definition same_answers (t1 t2 : list entry) : Prop :=
  first_answer keys_of_ok t1 = first_answer keys_of_ok t2
  /\ first_answer challenge_of_ok t1 = first_answer challenge_of_ok t2
  /\ first_answer signature_of_ok t1 = first_answer signature_of_ok t2
  /\ first_answer ciphertext_of_ok t1 = first_answer ciphertext_of_ok t2.

(** *** Login calls and their counterparts in register

    What a call of login becomes in register: the challenge request loses
    its public key, the submission gains the profile, the user fetch
    disappears, and the hand-over takes the response of register and the
    user inside it.  Crypto calls stay as they are. *)
Definition as_register (profile : Profile) (res : RegisterResponse.t) (c : call)
  : list call :=
  match c with
  | Remote (GetLoginChallengeToken url _) =>
      [Remote (GetRegisterChallengeToken url)]
  | Remote (LoginAccount url data) =>
      [Remote (RegisterAccount url
         {| RegisterInput.challenge := LoginInput.challenge data;
            RegisterInput.publicKey := LoginInput.publicKey data;
            RegisterInput.device := LoginInput.device data;
            RegisterInput.profile := profile |})]
  | Remote (GetUser _ _) => []
  | Collab (UserDataLogin _ _ seedBase64) =>
      [Collab (UserDataLogin (RegisterResult res) (RegisterResponse.user res)
                 seedBase64)]
  | c => [c]
  end.

(** The first two of a list in the other order. *)
Definition swap_first_two {A} (l : list A) : list A :=
  match l with
  | a :: b :: l' => b :: a :: l'
  | _ => l
  end.

(** A service like the one of [Demo] that issues the same challenge code
    for login and for register. *)
Module Mirror.
Import Demo.

Definition one_code (c : remote_call) (n : nat) : result (remote_answer c) * nat :=
  match c as c0 return result (remote_answer c0) * nat with
  | GetRegisterChallengeToken _ => (Ok {| challenge := "c1" |}, n)
  | c0 => service c0 n
  end.

Definition uniform : Env nat :=
  {| crypto_h := crypto; remote_h := one_code; collab_h := session_store |}.
End Mirror.

(** * Properties *)

Arguments handle : simpl never.

Lemma handle_store {S} (E : Env S) (c : call) (w : World S) :
  is_collab c = false -> store (snd (handle E c w)) = store w.
Proof.
  destruct c as [c|c|c]; unfold handle; intros Hc; try discriminate.
  - destruct (crypto_h E c (ext w)); reflexivity.
  - destruct (remote_h E c (ext w)); reflexivity.
Qed.

Lemma handle_store_eq {S} (E : Env S) (c : call) (w w' : World S) r :
  handle E c w = (r, w') -> is_collab c = false -> store w' = store w.
Proof.
  intros Hh Hc. pose proof (handle_store E c w Hc) as Hs.
  rewrite Hh in Hs. exact Hs.
Qed.

(** Answer the next call of the program under [run], both ways. *)
Ltac answer E :=
  match goal with
  | |- context [handle E ?c ?w] =>
      let r := fresh "r" in
      let w' := fresh "w" in
      let Hh := fresh "Hh" in
      destruct (handle E c w) as [r w'] eqn:Hh;
      try (apply handle_store_eq in Hh; [| reflexivity]);
      destruct r; cbn
  end.

Ltac walk E := cbn; repeat (answer E).

Section Sequential.
Context `{Encoding} {S : Type} (E : Env S) (url : string).

(** C1, as amended.  When key derivation is rejected, a handshake aborts
    at once: the rejected derivation is the last call it makes, and the
    handshake fails with the error of the derivation.  In login nothing
    precedes the derivation, so no remote call is made at all; in register
    the one call that precedes it, the request for a registration
    challenge, has been made, and nothing else.  Neither signs, encrypts
    or submits anything, and neither reaches the session store. *)
Theorem derivation_failure_stops_handshake (h : Handshake) (w : World S) :
  derivation_failed (trace (run E (start url h) w)) = true ->
  remote_calls (trace (run E (start url h) w)) = calls_before_derivation url h
  /\ count_calls is_submit (trace (run E (start url h) w)) = 0
  /\ collab_calls (trace (run E (start url h) w)) = []
  /\ is_ok (outcome (run E (start url h) w)) = false
  /\ map call_of (trace (run E (start url h) w))
     = (map Remote (calls_before_derivation url h)
        ++ [Crypto (KeysFromMnemonic (mnemonic_of h))])%list
  /\ count_calls is_sign_or_encrypt (trace (run E (start url h) w)) = 0
  /\ (exists e, errors (trace (run E (start url h) w)) = [e]
                /\ outcome (run E (start url h) w) = Err e).
Proof.
  destruct h as [d|d]; unfold start, login, register, await_then.
  - walk E; intros Hd; try discriminate;
      repeat (split; [reflexivity |]); eexists; split; reflexivity.
  - walk E; intros Hd; try discriminate;
      repeat (split; [reflexivity |]); eexists; split; reflexivity.
Qed.

(** C2.  In login and in register alike, when a step before the hand-over
    is rejected (key derivation, challenge request, signing, encryption,
    submission, user fetch) the session store is not called, the stored
    account is what it was, and the callback fails.  Conversely the
    session store is called only as the last step, after all the steps
    before it (six in login, five in register) have succeeded. *)
Theorem failed_step_installs_no_session (h : Handshake) (w : World S) :
  (step_failed (trace (run E (start url h) w)) = true ->
     collab_calls (trace (run E (start url h) w)) = []
     /\ store (final (run E (start url h) w)) = store w
     /\ is_ok (outcome (run E (start url h) w)) = false)
  /\ (collab_calls (trace (run E (start url h) w)) <> [] ->
      exists steps r user seedBase64 done,
        trace (run E (start url h) w)
          = (steps ++ [Entry (Collab (UserDataLogin r user seedBase64)) done])%list
        /\ forallb succeeded steps = true
        /\ collab_calls steps = []
        /\ length steps = match h with LoginWith _ => 6 | RegisterWith _ => 5 end).
Proof.
  destruct h as [d|d]; unfold start, login, register, await_then; split.
  - walk E; intros Hf; try discriminate; repeat split; congruence.
  - walk E; intros Hc; try congruence;
      (eexists [_; _; _; _; _; _], _, _, _, _;
       split; [reflexivity | repeat split]).
  - walk E; intros Hf; try discriminate; repeat split; congruence.
  - walk E; intros Hc; try congruence;
      (eexists [_; _; _; _; _], _, _, _, _;
       split; [reflexivity | repeat split]).
Qed.

(** C3.  A login that succeeds has made exactly these calls, in this
    order: derive the keys from the mnemonic; request a login challenge
    for the base64url public key; sign the challenge that came back;
    encrypt the device name under the derived seed; submit challenge code,
    signature, public key and encrypted device; fetch the user with the
    token of the login response; hand login response, user and the
    base64 seed to the session store. *)
Theorem login_steps (d : LoginData.t) (w : World S) :
  is_ok (outcome (run E (login url d) w)) = true ->
  exists keys tok sig dev res user,
    trace (run E (login url d) w) =
    [ Entry (Crypto (KeysFromMnemonic (LoginData.mnemonic d))) (Ok keys);
      Entry (Remote (GetLoginChallengeToken url
                       (bytesToBase64Url (publicKey keys)))) (Ok tok);
      Entry (Crypto (SignChallenge keys (challenge tok))) (Ok sig);
      Entry (Crypto (EncryptData (LoginData.device (LoginData.userData d))
                       (seed keys))) (Ok dev);
      Entry (Remote (LoginAccount url
               {| LoginInput.challenge :=
                    {| code := challenge tok; signature := sig |};
                  LoginInput.publicKey := bytesToBase64Url (publicKey keys);
                  LoginInput.device := dev |})) (Ok res);
      Entry (Remote (GetUser url (LoginResponse.token res))) (Ok user);
      Entry (Collab (UserDataLogin (LoginResult res) user
                       (bytesToBase64 (seed keys)))) (Ok tt) ].
Proof.
  unfold login, await_then. walk E; intros Hok; try discriminate.
  match goal with u : answer (Collab _) |- _ => destruct u end.
  do 6 eexists. reflexivity.
Qed.

(** C4.  With an account in the store, logout asks the service to remove
    the session (token and session id of that account) and then calls the
    logout handler of the session store, whatever the removal answered:
    the handler is called once, on an unchanged store, and logout fails
    only if the handler itself throws, never because the removal was
    rejected.  Without an account logout does nothing at all. *)
Theorem logout_clears_whatever_revoke_does (w : World S) :
  (forall a : Account.t,
     remote_calls (trace (run E (logout url (Some a)) w))
       = [RemoveSession url (Account.token a) (Account.sessionId a)]
     /\ collab_calls (trace (run E (logout url (Some a)) w)) = [UserDataLogout]
     /\ (exists w1, store w1 = store w
           /\ final (run E (logout url (Some a)) w)
                = snd (collab_h E UserDataLogout w1)
           /\ is_ok (outcome (run E (logout url (Some a)) w))
                = is_ok (fst (collab_h E UserDataLogout w1))))
  /\ run E (logout url None) w = {| outcome := Ok tt; final := w; trace := [] |}.
Proof.
  split; [intros a | reflexivity].
  unfold logout, try_await, invoke. cbn.
  destruct (handle E (Remote (RemoveSession url (Account.token a)
                                (Account.sessionId a))) w)
    as [revoked w1] eqn:Hrevoke.
  apply handle_store_eq in Hrevoke; [| reflexivity].
  cbn. unfold handle at 1 2 3 4.
  destruct (collab_h E UserDataLogout w1) as [[u|e] w2] eqn:Hclear; cbn;
    (split; [reflexivity | split; [reflexivity |]]);
    exists w1; rewrite Hclear; auto.
Qed.

(** C5, as amended.  The register callback mirrors login with four
    differences.  It requests its challenge first, before it derives the
    keys, where login derives the keys first; the challenge request names
    the backend and nothing else (no public key); the submission carries
    the profile next to the encrypted device; and the user handed to the
    session store is the one inside the register response, so that no
    separate user fetch is made.  In full: on any run the only remote calls
    of register are the challenge request and the submission; a register
    that succeeds has made exactly the six calls listed, in this order; and
    when a login and a register on the same mnemonic and device both
    succeed and derivation, challenge request, signing and encryption were
    answered alike in both, the calls of register are the calls of login,
    each turned into its counterpart ([as_register]: the challenge request
    without its key, the submission with the profile, the user fetch
    dropped, the hand-over with the response of register and its user),
    with the first two in the other order. *)
Theorem register_steps (d : RegistrationData.t) (w : World S) :
  Forall (fun c => c = GetRegisterChallengeToken url
                   \/ exists data, c = RegisterAccount url data)
         (remote_calls (trace (run E (register url d) w)))
  /\ (is_ok (outcome (run E (register url d) w)) = true ->
      exists tok keys sig dev res,
        trace (run E (register url d) w) =
        [ Entry (Remote (GetRegisterChallengeToken url)) (Ok tok);
          Entry (Crypto (KeysFromMnemonic (RegistrationData.mnemonic d)))
                (Ok keys);
          Entry (Crypto (SignChallenge keys (challenge tok))) (Ok sig);
          Entry (Crypto (EncryptData
                   (RegistrationData.device (RegistrationData.userData d))
                   (seed keys))) (Ok dev);
          Entry (Remote (RegisterAccount url
                   {| RegisterInput.challenge :=
                        {| code := challenge tok; signature := sig |};
                      RegisterInput.publicKey :=
                        bytesToBase64Url (publicKey keys);
                      RegisterInput.device := dev;
                      RegisterInput.profile :=
                        RegistrationData.profile
                          (RegistrationData.userData d) |})) (Ok res);
          Entry (Collab (UserDataLogin (RegisterResult res)
                           (RegisterResponse.user res)
                           (bytesToBase64 (seed keys)))) (Ok tt) ])
  /\ (forall (dl : LoginData.t) (wl : World S),
        is_ok (outcome (run E (login url dl) wl)) = true ->
        is_ok (outcome (run E (register url d) w)) = true ->
        LoginData.mnemonic dl = RegistrationData.mnemonic d ->
        LoginData.device (LoginData.userData dl)
          = RegistrationData.device (RegistrationData.userData d) ->
        same_answers (trace (run E (login url dl) wl))
                     (trace (run E (register url d) w)) ->
        exists res,
          map call_of (trace (run E (register url d) w))
          = swap_first_two
              (flat_map
                 (as_register
                    (RegistrationData.profile (RegistrationData.userData d)) res)
                 (map call_of (trace (run E (login url dl) wl))))).
Proof.
  unfold register, await_then; split; [| split].
  - walk E; repeat (apply Forall_cons || apply Forall_nil);
      ((left; reflexivity) || (right; eexists; reflexivity)).
  - walk E; intros Hok; try discriminate.
    match goal with u : answer (Collab _) |- _ => destruct u end.
    do 5 eexists. reflexivity.
  - intros [ml [devl]] wl. destruct d as [mr [devr pr]].
    unfold login, await_then. cbn [LoginData.mnemonic LoginData.userData
      LoginData.device RegistrationData.mnemonic RegistrationData.userData
      RegistrationData.device RegistrationData.profile].
    walk E; intros Hl Hr Hm Hd Hsame; try discriminate Hl; try discriminate Hr.
    subst ml devl. destruct Hsame as (Hk & Hc & Hs & He). cbn in Hk, Hc, Hs, He.
    injection Hk as Hk. injection Hc as Hc. injection Hs as Hs.
    injection He as He. subst.
    eexists. cbn. rewrite Hc. reflexivity.
Qed.

(** C6.  Without an account in the store, restore returns at once and
    without error: no call is made, neither to the service nor to the
    session store, and the world is as before. *)
Theorem restore_without_session (w : World S) :
  run E (restore url None) w = {| outcome := Ok tt; final := w; trace := [] |}.
Proof. reflexivity. Qed.

(** C7.  When restore runs with an account and one of its three fetches
    (user, bookmarks, progress) is rejected, restore fails with the error
    of that fetch, and the session is left alone: the session store is not
    called at all (no logout, no sync with partial data) and the stored
    account is what it was. *)
Theorem restore_failure_keeps_session (a : Account.t) (w : World S) :
  step_failed (trace (run E (restore url (Some a)) w)) = true ->
  (exists e, outcome (run E (restore url (Some a)) w) = Err e
             /\ errors (trace (run E (restore url (Some a)) w)) = [e])
  /\ collab_calls (trace (run E (restore url (Some a)) w)) = []
  /\ store (final (run E (restore url (Some a)) w)) = store w.
Proof.
  unfold restore, await_then, invoke.
  walk E; intros Hf; try discriminate;
    (split; [eexists; split; reflexivity | split; [reflexivity | congruence]]).
Qed.
End Sequential.

Section Secrecy.
Context `{Encoding} {S1 S2 : Type} (E1 : Env S1) (E2 : Env S2) (url : string).

Lemma restore_remote_calls (a : Account.t) (w : World S1) :
  exists n,
    remote_calls (trace (run E1 (restore url (Some a)) w))
    = firstn n [ GetUser url (Account.token a);
                 GetBookmarks url a;
                 GetProgress url a ].
Proof.
  unfold restore, await_then, invoke. walk E1;
    first [ now (exists 3) | now (exists 2) | now (exists 1) ].
Qed.

Ltac same_view :=
  let Hv := fresh "Hv" in
  intros Hv; try discriminate Hv; cbn in Hv;
  try (injection Hv as Hv); intros; subst; try congruence.

(** Run along a course: an accepted call is the one of the course, a
    rejected one ends the run. *)
Ltac along :=
  cbn [follows];
  first [ exact I
        | left; split; [reflexivity | along]
        | right; split; [reflexivity | split; reflexivity] ].

(** Name the answers of a run, those it never got included. *)
Ltac supply :=
  lazymatch goal with
  | |- ex _ => eexists; supply
  | |- True => exact I
  | |- _ \/ _ => along
  | |- _ => cbn; repeat constructor
  end.

(** C8, as amended.  In login, register and logout every call, on every
    run, is the one the course of the callback has at that place
    ([login_log], [register_log]), so that the remote calls carry exactly:
    the base64url public key of the derived keys; the challenge token the
    service issued; the signature, which is what signing that challenge
    with the derived keys answered; the encrypted device, which is what
    encrypting the device name under the derived seed answered; the
    profile of the input; the bearer token of the login response; and, in
    logout, the token and session id of the account.  The mnemonic goes to
    key derivation only, the derived keys to signing only, the raw seed to
    encryption only (and, base64-encoded, to the session store).  Hence the
    remote calls are a function of the public part of the run: two runs
    that agree on the public input (profile; token and session id of the
    stored account) and on the public part of every answer make the same
    remote calls, whatever the mnemonics, the private keys, the derived
    seeds, the stored seeds and the device names are.  The restore callback
    is different: it passes the bearer token to the user fetch but the whole
    stored account record, every field of it, to the bookmark and progress
    fetches. *)
Theorem secrets_stay_local :
  (forall (op1 op2 : Operation) (w1 : World S1) (w2 : World S2),
     is_restore op1 = false ->
     same_public_input op1 op2 ->
     same_public_store (store w1) (store w2) ->
     map observe (trace (run E1 (perform (store w1) url op1) w1))
       = map observe (trace (run E2 (perform (store w2) url op2) w2)) ->
     remote_calls (trace (run E1 (perform (store w1) url op1) w1))
       = remote_calls (trace (run E2 (perform (store w2) url op2) w2)))
  /\ (forall (a : Account.t) (w : World S1),
       account (store w) = Some a ->
       exists n,
         remote_calls (trace (run E1 (perform (store w) url OpRestore) w))
         = firstn n [ GetUser url (Account.token a);
                      GetBookmarks url a;
                      GetProgress url a ])
  /\ (forall (d : LoginData.t) (w : World S1),
       exists keys tok sig dev res user,
         follows (trace (run E1 (login url d) w))
                 (login_log url d keys tok sig dev res user))
  /\ (forall (d : RegistrationData.t) (w : World S1),
       exists tok keys sig dev res,
         follows (trace (run E1 (register url d) w))
                 (register_log url d tok keys sig dev res))
  /\ (forall (a : Account.t) (w : World S1),
       map call_of (trace (run E1 (logout url (Some a)) w))
       = [ Remote (RemoveSession url (Account.token a) (Account.sessionId a));
           Collab UserDataLogout ]).
Proof.
  split; [| split; [| split; [| split]]].
  - intros op1 op2 w1 w2 Hop Hin Hst.
    destruct op1 as [d1| |d1|], op2 as [d2| |d2|];
      try discriminate Hop; try contradiction Hin; clear Hop.
    + unfold perform, useAuth, auth_login, login, await_then.
      walk E1; walk E2; same_view.
    + unfold same_public_store in Hst.
      unfold perform, useAuth, auth_logout, logout, try_await, invoke.
      destruct (account (store w1)) as [a1|], (account (store w2)) as [a2|];
        try contradiction Hst; [| reflexivity].
      destruct Hst as (Ht & Hs & _).
      walk E1; walk E2; intros _; congruence.
    + destruct d1 as [m1 [dev1 p1]], d2 as [m2 [dev2 p2]]. cbn in Hin. subst p2.
      unfold perform, useAuth, auth_register, register, await_then.
      walk E1; walk E2; same_view.
  - intros a w Ha. unfold perform, useAuth, auth_restore. rewrite Ha.
    apply restore_remote_calls.
  - intros d w. unfold login, login_log, await_then. walk E1;
      repeat match goal with u : answer (Collab _) |- _ => destruct u end;
      supply.
  - intros d w. unfold register, register_log, await_then. walk E1;
      repeat match goal with u : answer (Collab _) |- _ => destruct u end;
      supply.
  - intros a w. unfold logout, try_await, invoke. walk E1; reflexivity.
  Unshelve.
  all: cbn; repeat constructor.
Qed.
End Secrecy.

Section Overlapping.
Context `{Encoding} {S : Type} (E : Env S) (url : string).

Lemma count_calls_cons (f : call -> bool) (e : entry) (t : list entry) :
  count_calls f (e :: t)
  = (if f (call_of e) then 1 else 0) + count_calls f t.
Proof. unfold count_calls. cbn. destruct (f (call_of e)); reflexivity. Qed.

Lemma count_calls_log (f : call -> bool) (l : list (bool * entry)) :
  count_calls f (map snd l)
  = count_calls f (log_of true l) + count_calls f (log_of false l).
Proof.
  induction l as [|[b e] l IH]; [reflexivity|].
  cbn [map snd log_of]. destruct b; cbn [Bool.eqb];
    rewrite !count_calls_cons, IH; lia.
Qed.

Lemma count_calls_app (f : call -> bool) (t1 t2 : list entry) :
  count_calls f (t1 ++ t2) = count_calls f t1 + count_calls f t2.
Proof. unfold count_calls. rewrite filter_app, length_app. reflexivity. Qed.

Lemma log_of_own (who : bool) (es : list entry) (l : list (bool * entry)) :
  log_of who (map (pair who) es ++ l) = (es ++ log_of who l)%list.
Proof.
  induction es as [|e es IH]; [reflexivity|].
  cbn. rewrite Bool.eqb_reflx, IH. reflexivity.
Qed.

Lemma log_of_other (who : bool) (es : list entry) (l : list (bool * entry)) :
  log_of (negb who) (map (pair who) es ++ l) = log_of (negb who) l.
Proof.
  induction es as [|e es IH]; [reflexivity|].
  cbn. rewrite IH. destruct who; reflexivity.
Qed.

Lemma returns_after_returned {A} (f : call -> bool) (p : prog A) (n : nat) :
  returns_after f p n -> returned p = true -> n = 0.
Proof. destruct p; cbn; intros Hp Hr; try discriminate; exact Hp. Qed.

(** One turn of a callback uses up what it owes. *)
Lemma step_returns_after {A} (f : call -> bool) (p : prog A) (w : World S)
      (n : nat) :
  returns_after f p n ->
  exists n',
    returns_after f (fst (fst (step E p w))) n'
    /\ count_calls f (snd (step E p w)) + n' = n.
Proof.
  destruct p as [a|e|c k]; cbn [step]; intros Hp.
  - exists n. split; [exact Hp | reflexivity].
  - exists n. split; [exact Hp | reflexivity].
  - destruct (handle E c w) as [r w'] eqn:Hh. cbn [fst snd].
    cbn [returns_after] in Hp. rewrite count_calls_cons. cbn [call_of].
    destruct (f c).
    + destruct n as [|m]; [contradiction|].
      exists m. split; [apply Hp | reflexivity].
    + exists n. split; [apply Hp | reflexivity].
Qed.

(** However two callbacks are interleaved, each makes the calls it would
    make alone: what it has made plus what it still owes is constant. *)
Lemma interleave_returns_after (f : call -> bool) (sched : list bool) :
  forall (p q : prog unit) (w : World S) (n m : nat),
    returns_after f p n -> returns_after f q m ->
    exists n' m',
      returns_after f (first (interleave E sched p q w)) n'
      /\ returns_after f (second (interleave E sched p q w)) m'
      /\ count_calls f (log_of true (log (interleave E sched p q w))) + n' = n
      /\ count_calls f (log_of false (log (interleave E sched p q w))) + m' = m.
Proof.
  induction sched as [|b sched IH]; intros p q w n m Hp Hq.
  - exists n, m. cbn. auto.
  - destruct b; cbn [interleave].
    + destruct (step_returns_after f p w n Hp) as (n1 & Hp1 & Hn1).
      destruct (step E p w) as [[p' w'] es]. cbn [fst snd] in Hp1, Hn1.
      destruct (IH p' q w' n1 m Hp1 Hq) as (n' & m' & H1 & H2 & H3 & H4).
      exists n', m'. cbn [first second log]. repeat split; auto.
      * rewrite (log_of_own true), count_calls_app. lia.
      * rewrite (log_of_other true). exact H4.
    + destruct (step_returns_after f q w m Hq) as (m1 & Hq1 & Hm1).
      destruct (step E q w) as [[q' w'] es]. cbn [fst snd] in Hq1, Hm1.
      destruct (IH p q' w' n m1 Hp Hq1) as (n' & m' & H1 & H2 & H3 & H4).
      exists n', m'. cbn [first second log]. repeat split; auto.
      * rewrite (log_of_other false). exact H3.
      * rewrite (log_of_own false), count_calls_app. lia.
Qed.

Lemma login_submits_once (d : LoginData.t) :
  returns_after is_submit (login url d) 1.
Proof.
  unfold login, await_then. cbn.
  repeat (let r := fresh "r" in intros r; destruct r; cbn; auto).
Qed.

Lemma login_hands_over_once (d : LoginData.t) :
  returns_after is_login_handler (login url d) 1.
Proof.
  unfold login, await_then. cbn.
  repeat (let r := fresh "r" in intros r; destruct r; cbn; auto).
Qed.

Lemma errors_cons_incl (x : err) (e : entry) (t : list entry) :
  In x (errors t) -> In x (errors (e :: t)).
Proof. cbn. destruct (error_of e); cbn; auto. Qed.

(** However two callbacks are interleaved, one that ends with an
    exception got it as the answer to a call of its own. *)
Lemma interleave_relays (sched : list bool) :
  forall (p q : prog unit) (w : World S),
    (relays p \/ exists e, p = Throw e) ->
    (relays q \/ exists e, q = Throw e) ->
    (forall e, first (interleave E sched p q w) = Throw e ->
       p = Throw e
       \/ In e (errors (log_of true (log (interleave E sched p q w)))))
    /\ (forall e, second (interleave E sched p q w) = Throw e ->
         q = Throw e
         \/ In e (errors (log_of false (log (interleave E sched p q w))))).
Proof.
  induction sched as [|b sched IH]; intros p q w Hp Hq.
  - cbn. auto.
  - destruct b; cbn [interleave].
    + destruct p as [a|x|c k]; cbn [step].
      * cbn [first second log map app]. apply IH; auto.
      * cbn [first second log map app]. apply IH; auto.
      * destruct (handle E c w) as [r w'].
        cbn [first second log map app log_of Bool.eqb].
        destruct Hp as [Hp | [x Hx]]; [| discriminate].
        cbn [relays] in Hp. specialize (Hp r).
        assert (Hk : relays (k r) \/ exists e, k r = Throw e).
        { destruct Hp as [(x & _ & Hx) | Hr]; eauto. }
        destruct (IH (k r) q w' Hk Hq) as [IHp IHq].
        split; [| exact IHq].
        intros e He. right. destruct (IHp e He) as [Hthrown | Hin].
        -- destruct Hp as [(x & Hr & Hx) | Hr].
           ++ rewrite Hx in Hthrown. injection Hthrown as ->.
              subst r. cbn. auto.
           ++ rewrite Hthrown in Hr. contradiction.
        -- apply errors_cons_incl. exact Hin.
    + destruct q as [a|x|c k]; cbn [step].
      * cbn [first second log map app]. apply IH; auto.
      * cbn [first second log map app]. apply IH; auto.
      * destruct (handle E c w) as [r w'].
        cbn [first second log map app log_of Bool.eqb].
        destruct Hq as [Hq | [x Hx]]; [| discriminate].
        cbn [relays] in Hq. specialize (Hq r).
        assert (Hk : relays (k r) \/ exists e, k r = Throw e).
        { destruct Hq as [(x & _ & Hx) | Hr]; eauto. }
        destruct (IH p (k r) w' Hp Hk) as [IHp IHq].
        split; [exact IHp |].
        intros e He. right. destruct (IHq e He) as [Hthrown | Hin].
        -- destruct Hq as [(x & Hr & Hx) | Hr].
           ++ rewrite Hx in Hthrown. injection Hthrown as ->.
              subst r. cbn. auto.
           ++ rewrite Hthrown in Hr. contradiction.
        -- apply errors_cons_incl. exact Hin.
Qed.

(** A callback is over once it has had as many turns as it has calls to
    make, wherever in the schedule those turns are. *)
Lemma interleave_ends (sched : list bool) :
  forall (p q : prog unit) (w : World S) (n m : nat),
    ends_within n p -> ends_within m q ->
    (n <= turns true sched -> over (first (interleave E sched p q w)) = true)
    /\ (m <= turns false sched -> over (second (interleave E sched p q w)) = true).
Proof.
  induction sched as [|b sched IH]; intros p q w n m Hp Hq.
  - cbn. split; intros Hle.
    + destruct p; [reflexivity | reflexivity |].
      destruct n; [contradiction | inversion Hle].
    + destruct q; [reflexivity | reflexivity |].
      destruct m; [contradiction | inversion Hle].
  - destruct b; cbn [interleave].
    + destruct p as [a|x|c k]; cbn [step].
      * cbn [first second]. split; intros Hle.
        -- apply (IH (Ret a) q w 0 m I Hq). apply Nat.le_0_l.
        -- apply (IH (Ret a) q w 0 m I Hq). exact Hle.
      * cbn [first second]. split; intros Hle.
        -- apply (IH (Throw x) q w 0 m I Hq). apply Nat.le_0_l.
        -- apply (IH (Throw x) q w 0 m I Hq). exact Hle.
      * destruct (handle E c w) as [r w']. cbn [first second].
        destruct n as [|n]; [contradiction |]. cbn [ends_within] in Hp.
        split; intros Hle.
        -- apply (IH (k r) q w' n m (Hp r) Hq).
           unfold turns in *. cbn in Hle. lia.
        -- apply (IH (k r) q w' n m (Hp r) Hq). exact Hle.
    + destruct q as [a|x|c k]; cbn [step].
      * cbn [first second]. split; intros Hle.
        -- apply (IH p (Ret a) w n 0 Hp I). exact Hle.
        -- apply (IH p (Ret a) w n 0 Hp I). apply Nat.le_0_l.
      * cbn [first second]. split; intros Hle.
        -- apply (IH p (Throw x) w n 0 Hp I). exact Hle.
        -- apply (IH p (Throw x) w n 0 Hp I). apply Nat.le_0_l.
      * destruct (handle E c w) as [r w']. cbn [first second].
        destruct m as [|m]; [contradiction |]. cbn [ends_within] in Hq.
        split; intros Hle.
        -- apply (IH p (k r) w' n m Hp (Hq r)). exact Hle.
        -- apply (IH p (k r) w' n m Hp (Hq r)).
           unfold turns in *. cbn in Hle. lia.
Qed.

Lemma login_ends_within_seven (d : LoginData.t) : ends_within 7 (login url d).
Proof.
  unfold login, await_then. cbn.
  repeat (let r := fresh "r" in intros r; destruct r; cbn; auto).
Qed.

Lemma login_relays (d : LoginData.t) : relays (login url d).
Proof.
  unfold login, await_then. cbn.
  repeat (let r := fresh "r" in intros r; destruct r; [right; cbn | left; eauto]).
  exact I.
Qed.

(** C9, as amended.  The hook has no single-flight guard: two overlapping
    login calls with the same mnemonic run independently, whatever the
    interleaving.  Neither waits for the other: each is over after seven
    turns of its own.  Neither joins the other: a call that returns has
    submitted its own login request and has called the login handler
    once, so when both return the handler has been called twice.  And the
    hook rejects neither: a call that ends with an exception got that
    exception as the answer to one of its own calls. *)
Theorem overlapping_logins_run_independently
    (sched : list bool) (d : LoginData.t) (w : World S) (who : bool) :
  (7 <= turns who sched ->
   over (side who (interleave E sched (login url d) (login url d) w)) = true)
  /\ (returned (side who (interleave E sched (login url d) (login url d) w))
     = true ->
   count_calls is_submit
     (log_of who (log (interleave E sched (login url d) (login url d) w))) = 1
   /\ count_calls is_login_handler
        (log_of who (log (interleave E sched (login url d) (login url d) w)))
      = 1)
  /\ (returned (first (interleave E sched (login url d) (login url d) w))
       = true ->
      returned (second (interleave E sched (login url d) (login url d) w))
       = true ->
      count_calls is_login_handler
        (map snd (log (interleave E sched (login url d) (login url d) w))) = 2)
  /\ (forall e,
        side who (interleave E sched (login url d) (login url d) w) = Throw e ->
        In e (errors (log_of who
                (log (interleave E sched (login url d) (login url d) w))))).
Proof.
  destruct (interleave_returns_after is_submit sched _ _ w 1 1
              (login_submits_once d) (login_submits_once d))
    as (n1 & m1 & Hn1 & Hm1 & Hcn1 & Hcm1).
  destruct (interleave_returns_after is_login_handler sched _ _ w 1 1
              (login_hands_over_once d) (login_hands_over_once d))
    as (n2 & m2 & Hn2 & Hm2 & Hcn2 & Hcm2).
  destruct (interleave_relays sched _ _ w
              (or_introl (login_relays d)) (or_introl (login_relays d)))
    as [Hfirst Hsecond].
  destruct (interleave_ends sched _ _ w 7 7
              (login_ends_within_seven d) (login_ends_within_seven d))
    as [Hend1 Hend2].
  set (o := interleave E sched (login url d) (login url d) w) in *.
  split; [| split; [| split]].
  - destruct who; cbn [side]; assumption.
  - intros Hret. destruct who; cbn [side] in Hret.
    + pose proof (returns_after_returned _ _ _ Hn1 Hret).
      pose proof (returns_after_returned _ _ _ Hn2 Hret). lia.
    + pose proof (returns_after_returned _ _ _ Hm1 Hret).
      pose proof (returns_after_returned _ _ _ Hm2 Hret). lia.
  - intros Hr1 Hr2.
    pose proof (returns_after_returned _ _ _ Hn2 Hr1).
    pose proof (returns_after_returned _ _ _ Hm2 Hr2).
    rewrite count_calls_log. lia.
  - intros e He. destruct who; cbn [side] in He.
    + destruct (Hfirst e He) as [Hbad | Hin]; [| exact Hin].
      unfold login, await_then in Hbad. discriminate.
    + destruct (Hsecond e He) as [Hbad | Hin]; [| exact Hin].
      unfold login, await_then in Hbad. discriminate.
Qed.
End Overlapping.

(** C10.  On every render the hook reports [loggedIn] exactly when the
    store holds an account, and reports as profile the profile of that
    account; so the profile is undefined whenever [loggedIn] is false. *)
Theorem loggedIn_iff_account `{Encoding} (s : AuthStore) (url : string) :
  (auth_loggedIn (useAuth s url) = true <-> account s <> None)
  /\ auth_profile (useAuth s url) = option_map Account.profile (account s)
  /\ (auth_loggedIn (useAuth s url) = false -> auth_profile (useAuth s url) = None).
Proof.
  unfold useAuth, loggedIn, profile. cbn.
  destruct (account s) as [a|]; cbn; repeat split;
    intros; try discriminate; try congruence.
Qed.

(** * The properties at work *)

Section AtWork.
Import Demo.
Existing Instance hex.

(** C1: a register call with a phrase that is no mnemonic has already
    asked the service for a challenge when derivation is rejected, so that
    "no network call" does not hold for register. *)
Lemma register_asks_before_deriving :
  derivation_failed (trace (run online (register url bad_newcomer) fresh)) = true
  /\ remote_calls (trace (run online (register url bad_newcomer) fresh))
     = [GetRegisterChallengeToken url]
  /\ remote_calls (trace (run online (register url bad_newcomer) fresh)) <> [].
Proof.
  split; [vm_compute; reflexivity |].
  split; [vm_compute; reflexivity | vm_compute; discriminate].
Qed.

Lemma derivation_failure_at_work :
  derivation_failed
    (trace (run online (start url (RegisterWith bad_newcomer)) fresh)) = true
  /\ (remote_calls (trace (run online (start url (RegisterWith bad_newcomer)) fresh))
      = calls_before_derivation url (RegisterWith bad_newcomer)
      /\ count_calls is_submit
           (trace (run online (start url (RegisterWith bad_newcomer)) fresh)) = 0
      /\ collab_calls
           (trace (run online (start url (RegisterWith bad_newcomer)) fresh)) = []
      /\ is_ok (outcome (run online (start url (RegisterWith bad_newcomer)) fresh))
         = false
      /\ map call_of
           (trace (run online (start url (RegisterWith bad_newcomer)) fresh))
         = (map Remote (calls_before_derivation url (RegisterWith bad_newcomer))
            ++ [Crypto (KeysFromMnemonic (mnemonic_of (RegisterWith bad_newcomer)))])%list
      /\ count_calls is_sign_or_encrypt
           (trace (run online (start url (RegisterWith bad_newcomer)) fresh)) = 0
      /\ (exists e,
            errors (trace (run online (start url (RegisterWith bad_newcomer)) fresh))
              = [e]
            /\ outcome (run online (start url (RegisterWith bad_newcomer)) fresh)
               = Err e)).
Proof.
  assert (Hd : derivation_failed
                 (trace (run online (start url (RegisterWith bad_newcomer)) fresh))
               = true) by (vm_compute; reflexivity).
  split; [exact Hd |].
  exact (derivation_failure_stops_handshake online url
           (RegisterWith bad_newcomer) fresh Hd).
Defined.

Lemma failed_step_at_work :
  step_failed (trace (run offline (start url (LoginWith good)) fresh)) = true
  /\ (collab_calls (trace (run offline (start url (LoginWith good)) fresh)) = []
      /\ store (final (run offline (start url (LoginWith good)) fresh)) = store fresh
      /\ is_ok (outcome (run offline (start url (LoginWith good)) fresh)) = false)
  /\ collab_calls (trace (run online (start url (RegisterWith newcomer)) fresh))
       <> []
  /\ (exists steps r user seedBase64 done,
        trace (run online (start url (RegisterWith newcomer)) fresh)
          = (steps ++ [Entry (Collab (UserDataLogin r user seedBase64)) done])%list
        /\ forallb succeeded steps = true
        /\ collab_calls steps = []
        /\ length steps = match RegisterWith newcomer with
                          | LoginWith _ => 6
                          | RegisterWith _ => 5
                          end).
Proof.
  assert (Hf : step_failed (trace (run offline (start url (LoginWith good)) fresh))
               = true) by (vm_compute; reflexivity).
  assert (Hc : collab_calls
                 (trace (run online (start url (RegisterWith newcomer)) fresh))
               <> []) by (vm_compute; discriminate).
  split; [exact Hf |].
  split; [exact (proj1 (failed_step_installs_no_session offline url
                          (LoginWith good) fresh) Hf) |].
  split; [exact Hc |].
  exact (proj2 (failed_step_installs_no_session online url
                  (RegisterWith newcomer) fresh) Hc).
Defined.

Lemma login_steps_at_work :
  is_ok (outcome (run online (login url good) fresh)) = true
  /\ exists keys tok sig dev res user,
       trace (run online (login url good) fresh) =
       [ Entry (Crypto (KeysFromMnemonic (LoginData.mnemonic good))) (Ok keys);
         Entry (Remote (GetLoginChallengeToken url
                          (bytesToBase64Url (publicKey keys)))) (Ok tok);
         Entry (Crypto (SignChallenge keys (challenge tok))) (Ok sig);
         Entry (Crypto (EncryptData (LoginData.device (LoginData.userData good))
                          (seed keys))) (Ok dev);
         Entry (Remote (LoginAccount url
                  {| LoginInput.challenge :=
                       {| code := challenge tok; signature := sig |};
                     LoginInput.publicKey := bytesToBase64Url (publicKey keys);
                     LoginInput.device := dev |})) (Ok res);
         Entry (Remote (GetUser url (LoginResponse.token res))) (Ok user);
         Entry (Collab (UserDataLogin (LoginResult res) user
                          (bytesToBase64 (seed keys)))) (Ok tt) ].
Proof.
  assert (Hok : is_ok (outcome (run online (login url good) fresh)) = true)
    by (vm_compute; reflexivity).
  split; [exact Hok |].
  exact (login_steps online url good fresh Hok).
Defined.

(** With the network down the removal is rejected, and logout still
    returns normally with the store cleared. *)
Lemma logout_offline :
  errors (trace (run offline (logout url (Some member)) signed_in)) = ["NetworkError"]
  /\ outcome (run offline (logout url (Some member)) signed_in) = Ok tt
  /\ account (store (final (run offline (logout url (Some member)) signed_in)))
     = None.
Proof. repeat split; vm_compute; reflexivity. Qed.

Lemma register_steps_at_work :
  (is_ok (outcome (run online (register url newcomer) fresh)) = true
   /\ exists tok keys sig dev res,
        trace (run online (register url newcomer) fresh) =
        [ Entry (Remote (GetRegisterChallengeToken url)) (Ok tok);
          Entry (Crypto (KeysFromMnemonic (RegistrationData.mnemonic newcomer)))
                (Ok keys);
          Entry (Crypto (SignChallenge keys (challenge tok))) (Ok sig);
          Entry (Crypto (EncryptData
                   (RegistrationData.device (RegistrationData.userData newcomer))
                   (seed keys))) (Ok dev);
          Entry (Remote (RegisterAccount url
                   {| RegisterInput.challenge :=
                        {| code := challenge tok; signature := sig |};
                      RegisterInput.publicKey :=
                        bytesToBase64Url (publicKey keys);
                      RegisterInput.device := dev;
                      RegisterInput.profile :=
                        RegistrationData.profile
                          (RegistrationData.userData newcomer) |})) (Ok res);
          Entry (Collab (UserDataLogin (RegisterResult res)
                           (RegisterResponse.user res)
                           (bytesToBase64 (seed keys)))) (Ok tt) ])
  /\ (is_ok (outcome (run Mirror.uniform (login url good) fresh)) = true
      /\ is_ok (outcome (run Mirror.uniform (register url newcomer) fresh)) = true
      /\ same_answers (trace (run Mirror.uniform (login url good) fresh))
                      (trace (run Mirror.uniform (register url newcomer) fresh))
      /\ exists res,
           map call_of (trace (run Mirror.uniform (register url newcomer) fresh))
           = swap_first_two
               (flat_map
                  (as_register
                     (RegistrationData.profile
                        (RegistrationData.userData newcomer)) res)
                  (map call_of
                     (trace (run Mirror.uniform (login url good) fresh))))).
Proof.
  assert (Hok : is_ok (outcome (run online (register url newcomer) fresh)) = true)
    by (vm_compute; reflexivity).
  assert (Hl : is_ok (outcome (run Mirror.uniform (login url good) fresh)) = true)
    by (vm_compute; reflexivity).
  assert (Hr : is_ok (outcome (run Mirror.uniform (register url newcomer) fresh))
               = true) by (vm_compute; reflexivity).
  assert (Hm : LoginData.mnemonic good = RegistrationData.mnemonic newcomer)
    by reflexivity.
  assert (Hd : LoginData.device (LoginData.userData good)
               = RegistrationData.device (RegistrationData.userData newcomer))
    by reflexivity.
  assert (Hs : same_answers
                 (trace (run Mirror.uniform (login url good) fresh))
                 (trace (run Mirror.uniform (register url newcomer) fresh)))
    by (vm_compute; repeat split).
  destruct (register_steps online url newcomer fresh) as (_ & Hsteps & _).
  destruct (register_steps Mirror.uniform url newcomer fresh)
    as (_ & _ & Hmirror).
  split; [split; [exact Hok | exact (Hsteps Hok)] |].
  split; [exact Hl |]. split; [exact Hr |]. split; [exact Hs |].
  exact (Hmirror good fresh Hl Hr Hm Hd Hs).
Defined.

(** C5: a login and a register on the same mnemonic and device, answered
    alike, both succeeding; yet the calls of register are not the calls of
    login turned into their counterparts in the same order: register begins
    with the challenge request, login with the derivation. *)
Lemma register_is_no_plain_mirror :
  is_ok (outcome (run Mirror.uniform (login url good) fresh)) = true
  /\ is_ok (outcome (run Mirror.uniform (register url newcomer) fresh)) = true
  /\ LoginData.mnemonic good = RegistrationData.mnemonic newcomer
  /\ LoginData.device (LoginData.userData good)
     = RegistrationData.device (RegistrationData.userData newcomer)
  /\ same_answers (trace (run Mirror.uniform (login url good) fresh))
                  (trace (run Mirror.uniform (register url newcomer) fresh))
  /\ map is_derive
       (firstn 2 (map call_of (trace (run Mirror.uniform (login url good) fresh))))
     = [true; false]
  /\ map is_derive
       (firstn 2 (map call_of
                    (trace (run Mirror.uniform (register url newcomer) fresh))))
     = [false; true]
  /\ (forall res,
        map call_of (trace (run Mirror.uniform (register url newcomer) fresh))
        <> flat_map
             (as_register
                (RegistrationData.profile (RegistrationData.userData newcomer))
                res)
             (map call_of (trace (run Mirror.uniform (login url good) fresh)))).
Proof.
  split; [vm_compute; reflexivity |].
  split; [vm_compute; reflexivity |].
  split; [reflexivity |]. split; [reflexivity |].
  split; [vm_compute; repeat split |].
  split; [vm_compute; reflexivity |].
  split; [vm_compute; reflexivity |].
  intros res. vm_compute. discriminate.
Qed.

Lemma restore_failure_at_work :
  step_failed (trace (run offline (restore url (Some member)) signed_in)) = true
  /\ (exists e,
        outcome (run offline (restore url (Some member)) signed_in) = Err e
        /\ errors (trace (run offline (restore url (Some member)) signed_in))
           = [e])
  /\ collab_calls (trace (run offline (restore url (Some member)) signed_in)) = []
  /\ store (final (run offline (restore url (Some member)) signed_in))
     = store signed_in.
Proof.
  assert (Hf : step_failed
                 (trace (run offline (restore url (Some member)) signed_in))
               = true) by (vm_compute; reflexivity).
  split; [exact Hf |].
  exact (restore_failure_keeps_session offline url member signed_in Hf).
Defined.

(** C8: the account that restore hands to the bookmark fetch is the stored
    one, seed and all; it is the account a login leaves in the store, whose
    seed is the base64 of the seed derived from the mnemonic.  Changing
    nothing but the stored seed changes the remote calls. *)
Lemma restore_passes_stored_seed :
  store (final (run online (perform (store fresh) url (OpLogin good)) fresh))
    = store signed_in
  /\ remote_calls
       (trace (run online (perform (store signed_in) url OpRestore) signed_in))
     = [GetUser url "token0"; GetBookmarks url member; GetProgress url member]
  /\ Account.seed member = bytesToBase64 (seed keys)
  /\ same_public_input OpRestore OpRestore
  /\ same_public_store (store signed_in) (store other_signed_in)
  /\ map observe
       (trace (run online (perform (store signed_in) url OpRestore) signed_in))
     = map observe
         (trace (run online (perform (store other_signed_in) url OpRestore)
                   other_signed_in))
  /\ remote_calls
       (trace (run online (perform (store signed_in) url OpRestore) signed_in))
     <> remote_calls
          (trace (run online (perform (store other_signed_in) url OpRestore)
                    other_signed_in)).
Proof.
  split; [vm_compute; reflexivity |].
  split; [vm_compute; reflexivity |].
  split; [vm_compute; reflexivity |].
  split; [exact I |].
  split; [vm_compute; repeat split |].
  split; [vm_compute; reflexivity | vm_compute; discriminate].
Qed.

(** Two logins with different mnemonics, private keys and seeds, and the
    same remote calls. *)
Lemma secrets_stay_local_at_work :
  (LoginData.mnemonic good <> LoginData.mnemonic other_good
   /\ privateKey keys <> privateKey other_keys
   /\ seed keys <> seed other_keys)
  /\ remote_calls
       (trace (run online (perform (store fresh) url (OpLogin good)) fresh))
     = remote_calls
         (trace (run other_online
                   (perform (store fresh) url (OpLogin other_good)) fresh))
  /\ (exists n,
        remote_calls
          (trace (run online (perform (store signed_in) url OpRestore) signed_in))
        = firstn n [ GetUser url (Account.token member);
                     GetBookmarks url member;
                     GetProgress url member ])
  /\ (exists keys tok sig dev res user,
        follows (trace (run online (login url good) fresh))
                (login_log url good keys tok sig dev res user))
  /\ (exists tok keys sig dev res,
        follows (trace (run Outage.unsigned (register url newcomer) fresh))
                (register_log url newcomer tok keys sig dev res)).
Proof.
  assert (Hv : map observe
                 (trace (run online (perform (store fresh) url (OpLogin good))
                           fresh))
               = map observe
                   (trace (run other_online
                             (perform (store fresh) url (OpLogin other_good))
                             fresh))) by (vm_compute; reflexivity).
  assert (Hin : same_public_input (OpLogin good) (OpLogin other_good))
    by exact I.
  assert (Hst : same_public_store (store fresh) (store fresh)) by exact I.
  assert (Ha : account (store signed_in) = Some member) by reflexivity.
  destruct (secrets_stay_local online other_online url)
    as (Hlocal & Hrestore & Hlogin & _ & _).
  destruct (secrets_stay_local Outage.unsigned other_online url)
    as (_ & _ & _ & Hregister & _).
  split; [repeat split; vm_compute; discriminate |].
  split; [exact (Hlocal (OpLogin good) (OpLogin other_good) fresh fresh
                   eq_refl Hin Hst Hv) |].
  split; [exact (Hrestore member signed_in Ha) |].
  split; [exact (Hlogin good fresh) | exact (Hregister newcomer fresh)].
Defined.

(** C9: two logins with the same mnemonic, started back to back and
    resumed in turn, both return normally; no call of either was rejected;
    the service has issued two sessions and the login handler has been
    called twice, once with each. *)
Lemma overlapping_logins_two_sessions :
  returned (first (interleave online in_turn (login url good) (login url good)
                     fresh)) = true
  /\ returned (second (interleave online in_turn (login url good)
                         (login url good) fresh)) = true
  /\ errors (map snd (log (interleave online in_turn (login url good)
                             (login url good) fresh))) = []
  /\ collab_calls (map snd (log (interleave online in_turn (login url good)
                                   (login url good) fresh)))
     = [ UserDataLogin
           (LoginResult {| LoginResponse.token := "token0";
                           LoginResponse.sessionId := "session0" |})
           someone "b64:SD";
         UserDataLogin
           (LoginResult {| LoginResponse.token := "token1";
                           LoginResponse.sessionId := "session1" |})
           someone "b64:SD" ]
  /\ count_calls is_login_handler
       (map snd (log (interleave online in_turn (login url good)
                        (login url good) fresh))) <> 1.
Proof.
  split; [vm_compute; reflexivity |].
  split; [vm_compute; reflexivity |].
  split; [vm_compute; reflexivity |].
  split; [vm_compute; reflexivity | vm_compute; discriminate].
Qed.

Lemma overlapping_logins_at_work :
  (7 <= turns false in_turn
   /\ over (side false (interleave online in_turn (login url good)
                          (login url good) fresh)) = true)
  /\ (returned (first (interleave online in_turn (login url good) (login url good)
                         fresh)) = true
      /\ returned (second (interleave online in_turn (login url good)
                             (login url good) fresh)) = true)
  /\ count_calls is_submit
       (log_of false (log (interleave online in_turn (login url good)
                             (login url good) fresh))) = 1
  /\ count_calls is_login_handler
       (log_of false (log (interleave online in_turn (login url good)
                             (login url good) fresh))) = 1
  /\ count_calls is_login_handler
       (map snd (log (interleave online in_turn (login url good)
                        (login url good) fresh))) = 2
  /\ side false (interleave offline in_turn (login url good) (login url good)
                   fresh) = Throw "NetworkError"
  /\ In "NetworkError"
        (errors (log_of false (log (interleave offline in_turn (login url good)
                                      (login url good) fresh)))).
Proof.
  assert (H0 : 7 <= turns false in_turn) by (vm_compute; lia).
  assert (H1 : returned (first (interleave online in_turn (login url good)
                                  (login url good) fresh)) = true)
    by (vm_compute; reflexivity).
  assert (H2 : returned (second (interleave online in_turn (login url good)
                                   (login url good) fresh)) = true)
    by (vm_compute; reflexivity).
  assert (H3 : side false (interleave offline in_turn (login url good)
                             (login url good) fresh) = Throw "NetworkError")
    by (vm_compute; reflexivity).
  destruct (overlapping_logins_run_independently online url in_turn good fresh
              false) as (Hover & Hown & Hboth & _).
  destruct (overlapping_logins_run_independently offline url in_turn good fresh
              false) as (_ & _ & _ & Hthrown).
  destruct (Hown H2) as [Hsubmit Hhandler].
  split; [split; [exact H0 | exact (Hover H0)] |].
  split; [split; [exact H1 | exact H2] |].
  split; [exact Hsubmit |].
  split; [exact Hhandler |].
  split; [exact (Hboth H1 H2) |].
  split; [exact H3 | exact (Hthrown _ H3)].
Defined.

Lemma loggedIn_at_work :
  (auth_loggedIn (useAuth (store fresh) url) = false
   /\ auth_profile (useAuth (store fresh) url) = None)
  /\ (account (store signed_in) <> None
      /\ auth_loggedIn (useAuth (store signed_in) url) = true
      /\ auth_profile (useAuth (store signed_in) url)
         = option_map Account.profile (account (store signed_in))).
Proof.
  assert (Hout : auth_loggedIn (useAuth (store fresh) url) = false)
    by reflexivity.
  assert (Hin : account (store signed_in) <> None) by discriminate.
  destruct (loggedIn_iff_account (store fresh) url) as (_ & _ & Hundefined).
  destruct (loggedIn_iff_account (store signed_in) url) as (Hiff & Hprofile & _).
  split; [split; [exact Hout | exact (Hundefined Hout)] |].
  split; [exact Hin |].
  split; [exact (proj2 Hiff Hin) | exact Hprofile].
Defined.
End AtWork.

(** * Further properties of the four callbacks *)

(** Name the rejected call that ends a log, after up to six accepted ones. *)
Ltac ends_rejected :=
  let close := (split; [reflexivity | split; [reflexivity | split; reflexivity]]) in
  first
    [ eexists [], _, _; close
    | eexists [_], _, _; close
    | eexists [_; _], _, _; close
    | eexists [_; _; _], _, _; close
    | eexists [_; _; _; _], _, _; close
    | eexists [_; _; _; _; _], _, _; close
    | eexists [_; _; _; _; _; _], _, _; close ].

Ltac unfold_hook :=
  unfold perform, useAuth, auth_login, auth_logout, auth_register, auth_restore,
    login, logout, register, restore, await_then, try_await, invoke.

Section Further.
Context `{Encoding} {S : Type} (E : Env S) (url : string).

(** X1.  Whatever the operation, the store and the answers, every remote
    call the hook makes is addressed to the backend it was rendered
    with. *)
Theorem remote_calls_go_to_backend (s : AuthStore) (op : Operation) (w : World S) :
  Forall (fun c => url_of c = url)
         (remote_calls (trace (run E (perform s url op) w))).
Proof.
  destruct op; unfold_hook; destruct (account s); walk E;
    repeat (apply Forall_cons || apply Forall_nil); reflexivity.
Qed.

(** X2.  Login, register and restore stop at the first rejection they
    see: on any run either no call was rejected and the callback returns,
    or exactly the last call of the log was rejected, all calls before it
    were accepted, and the callback fails with the very error of that call
    (not wrapped, not replaced).  A rejection is the rejected promise of an
    awaited call (every crypto and remote call, and [userDataLogin]) or a
    synchronous throw of [syncData]; [syncData] is not awaited, so a
    promise it returns is not looked at, and what becomes of it is no
    rejection here. *)
Theorem first_rejection_ends_callback (s : AuthStore) (op : Operation) (w : World S) :
  is_logout op = false ->
  (errors (trace (run E (perform s url op) w)) = []
   /\ outcome (run E (perform s url op) w) = Ok tt)
  \/ (exists steps rejected e,
        trace (run E (perform s url op) w) = (steps ++ [rejected])%list
        /\ forallb succeeded steps = true
        /\ error_of rejected = Some e
        /\ outcome (run E (perform s url op) w) = Err e).
Proof.
  intros Hop. destruct op; try discriminate Hop; clear Hop;
    unfold_hook; destruct (account s); walk E;
    first [ left; split; reflexivity | right; ends_rejected ].
Qed.

(** X3.  When signing or encryption is rejected, a handshake has made
    exactly one remote call, its challenge request; it submits nothing,
    does not reach the session store, and fails. *)
Theorem crypto_failure_stops_before_submission (h : Handshake) (w : World S) :
  crypto_failed (trace (run E (start url h) w)) = true ->
  (exists c, remote_calls (trace (run E (start url h) w)) = [c]
             /\ is_challenge_request c = true)
  /\ count_calls is_submit (trace (run E (start url h) w)) = 0
  /\ collab_calls (trace (run E (start url h) w)) = []
  /\ is_ok (outcome (run E (start url h) w)) = false.
Proof.
  destruct h as [d|d]; unfold start, login, register, await_then;
    walk E; intros Hc; try discriminate Hc;
    (split; [eexists; split; reflexivity | repeat split]).
Qed.

(** X4.  When the user fetch of login is rejected, the submission before
    it had been accepted, so the service has issued a session; login then
    fails with the error of the fetch, leaves the store as it was, does
    not call the session store, and does not ask the service to remove the
    session it was issued. *)
Theorem user_fetch_failure_orphans_session (d : LoginData.t) (w : World S) :
  user_fetch_failed (trace (run E (login url d) w)) = true ->
  submission_accepted (trace (run E (login url d) w)) = true
  /\ count_calls is_revoke (trace (run E (login url d) w)) = 0
  /\ collab_calls (trace (run E (login url d) w)) = []
  /\ store (final (run E (login url d) w)) = store w
  /\ (exists e, outcome (run E (login url d) w) = Err e
                /\ errors (trace (run E (login url d) w)) = [e]).
Proof.
  unfold login, await_then. walk E; intros Hu; try discriminate Hu.
  split; [reflexivity |]. split; [reflexivity |]. split; [reflexivity |].
  split; [congruence |]. eexists; split; reflexivity.
Qed.

(** X5.  Only logout asks the service to remove a session: login, register
    and restore never do, whatever the store holds and whatever the
    answers are. *)
Theorem only_logout_revokes (s : AuthStore) (op : Operation) (w : World S) :
  is_logout op = false ->
  count_calls is_revoke (trace (run E (perform s url op) w)) = 0.
Proof.
  intros Hop. destruct op; try discriminate Hop; clear Hop;
    unfold_hook; destruct (account s); walk E; reflexivity.
Qed.

(** X6.  A restore that succeeds has made exactly these calls, in this
    order: fetch the user with the token of the account; fetch the
    bookmarks, then the progress, each with the account; hand user,
    progress and bookmarks (in this order of arguments) to [syncData]. *)
Theorem restore_steps (a : Account.t) (w : World S) :
  is_ok (outcome (run E (restore url (Some a)) w)) = true ->
  exists user bookmarks progress,
    trace (run E (restore url (Some a)) w) =
    [ Entry (Remote (GetUser url (Account.token a))) (Ok user);
      Entry (Remote (GetBookmarks url a)) (Ok bookmarks);
      Entry (Remote (GetProgress url a)) (Ok progress);
      Entry (Collab (SyncData user progress bookmarks)) (Ok tt) ].
Proof.
  unfold restore, await_then, invoke. walk E; intros Hok; try discriminate Hok.
  match goal with u : answer (Collab _) |- _ => destruct u end.
  do 3 eexists. reflexivity.
Qed.

Lemma perform_collab_due (s : AuthStore) (op : Operation) :
  returns_after is_collab (perform s url op) (collab_due s op).
Proof.
  destruct op; unfold_hook; unfold collab_due, has_account;
    destruct (account s); cbn;
    repeat (let r := fresh "r" in intros r; destruct r; cbn; auto);
    auto.
Qed.

Lemma perform_ends (s : AuthStore) (op : Operation) :
  ends_within (calls_at_most s op) (perform s url op).
Proof.
  destruct op; unfold_hook; unfold calls_at_most, has_account;
    destruct (account s); cbn;
    repeat (let r := fresh "r" in intros r; destruct r; cbn; auto);
    auto.
Qed.

Lemma perform_relays (s : AuthStore) (op : Operation) :
  relays (perform s url op).
Proof.
  destruct op; unfold_hook; destruct (account s); cbn;
    repeat (let r := fresh "r" in
            intros r; destruct r;
            first [ left; eexists; split; reflexivity | right; cbn ]);
    exact I.
Qed.

Lemma perform_not_thrown (s : AuthStore) (op : Operation) (e : err) :
  perform s url op <> Throw e.
Proof.
  destruct op; unfold_hook; destruct (account s); discriminate.
Qed.

(** X7.  Any two callbacks of the hook, on whatever renders, run
    independently when they overlap, whatever the interleaving: each is
    over after as many turns of its own as it has calls to make; each one
    that returns has called the session store exactly as often as it does
    when run alone (once for login and register, once for logout and
    restore with an account, never without); and one that ends with an
    exception got it as the answer to a call of its own. *)
Theorem overlapping_operations_run_independently
    (sched : list bool) (s1 s2 : AuthStore) (op1 op2 : Operation)
    (w : World S) (who : bool) :
  (calls_at_most (if who then s1 else s2) (if who then op1 else op2)
     <= turns who sched ->
   over (side who (interleave E sched (perform s1 url op1) (perform s2 url op2) w))
     = true)
  /\ (returned (side who (interleave E sched (perform s1 url op1)
                           (perform s2 url op2) w)) = true ->
      count_calls is_collab
        (log_of who (log (interleave E sched (perform s1 url op1)
                            (perform s2 url op2) w)))
      = collab_due (if who then s1 else s2) (if who then op1 else op2))
  /\ (forall e,
        side who (interleave E sched (perform s1 url op1) (perform s2 url op2) w)
          = Throw e ->
        In e (errors (log_of who
                (log (interleave E sched (perform s1 url op1)
                        (perform s2 url op2) w))))).
Proof.
  destruct (interleave_returns_after E is_collab sched _ _ w _ _
              (perform_collab_due s1 op1) (perform_collab_due s2 op2))
    as (n & m & Hn & Hm & Hcn & Hcm).
  destruct (interleave_relays E sched _ _ w
              (or_introl (perform_relays s1 op1))
              (or_introl (perform_relays s2 op2)))
    as [Hfirst Hsecond].
  destruct (interleave_ends E sched _ _ w _ _
              (perform_ends s1 op1) (perform_ends s2 op2))
    as [Hend1 Hend2].
  set (o := interleave E sched (perform s1 url op1) (perform s2 url op2) w) in *.
  split; [| split].
  - destruct who; cbn [side]; assumption.
  - intros Hret. destruct who; cbn [side] in Hret.
    + pose proof (returns_after_returned _ _ _ Hn Hret). lia.
    + pose proof (returns_after_returned _ _ _ Hm Hret). lia.
  - intros e He. destruct who; cbn [side] in He.
    + destruct (Hfirst e He) as [Hbad | Hin]; [| exact Hin].
      exfalso. exact (perform_not_thrown s1 op1 e Hbad).
    + destruct (Hsecond e He) as [Hbad | Hin]; [| exact Hin].
      exfalso. exact (perform_not_thrown s2 op2 e Hbad).
Qed.
End Further.

Section LocalSecrecy.
Context `{Encoding} {S1 S2 : Type} (E1 : Env S1) (E2 : Env S2) (url : string).

Ltac same_local_view :=
  let Hv := fresh "Hv" in
  intros Hv; try discriminate Hv; cbn in Hv;
  try (injection Hv as Hv); intros; subst; try congruence.

(** X8.  What the hook hands to the session store is a function of the
    public part of the answers and of the derived seed alone: two runs of
    the same callback that agree on those make the same calls to the
    session store with the same arguments, whatever the mnemonics, the
    private keys, the device names, the profiles and the stored accounts
    are.  So neither the mnemonic nor the private key ever reaches the
    session store. *)
Theorem secrets_stay_out_of_session_store
    (s1 s2 : AuthStore) (op1 op2 : Operation) (w1 : World S1) (w2 : World S2) :
  same_callback op1 op2 ->
  map local_view (trace (run E1 (perform s1 url op1) w1))
    = map local_view (trace (run E2 (perform s2 url op2) w2)) ->
  collab_calls (trace (run E1 (perform s1 url op1) w1))
    = collab_calls (trace (run E2 (perform s2 url op2) w2)).
Proof.
  intros Hop.
  destruct op1 as [d1| |d1|], op2 as [d2| |d2|]; try contradiction Hop;
    clear Hop; unfold_hook;
    destruct (account s1) as [a1|], (account s2) as [a2|];
    walk E1; walk E2; same_local_view.
Qed.
End LocalSecrecy.

(** * The further properties at work *)

Section FurtherAtWork.
Import Demo Outage.
Existing Instance hex.

Lemma first_rejection_at_work :
  is_logout (OpLogin good) = false
  /\ ((errors (trace (run offline (perform (store fresh) url (OpLogin good)) fresh))
         = []
       /\ outcome (run offline (perform (store fresh) url (OpLogin good)) fresh)
          = Ok tt)
      \/ (exists steps rejected e,
            trace (run offline (perform (store fresh) url (OpLogin good)) fresh)
              = (steps ++ [rejected])%list
            /\ forallb succeeded steps = true
            /\ error_of rejected = Some e
            /\ outcome (run offline (perform (store fresh) url (OpLogin good)) fresh)
               = Err e)).
Proof.
  assert (Hop : is_logout (OpLogin good) = false) by reflexivity.
  split; [exact Hop |].
  exact (first_rejection_ends_callback offline url (store fresh) (OpLogin good)
           fresh Hop).
Defined.

Lemma crypto_failure_at_work :
  crypto_failed (trace (run unsigned (start url (LoginWith good)) fresh)) = true
  /\ (exists c,
        remote_calls (trace (run unsigned (start url (LoginWith good)) fresh)) = [c]
        /\ is_challenge_request c = true)
  /\ count_calls is_submit (trace (run unsigned (start url (LoginWith good)) fresh))
     = 0
  /\ collab_calls (trace (run unsigned (start url (LoginWith good)) fresh)) = []
  /\ is_ok (outcome (run unsigned (start url (LoginWith good)) fresh)) = false.
Proof.
  assert (Hc : crypto_failed
                 (trace (run unsigned (start url (LoginWith good)) fresh)) = true)
    by (vm_compute; reflexivity).
  split; [exact Hc |].
  exact (crypto_failure_stops_before_submission unsigned url (LoginWith good)
           fresh Hc).
Defined.

Lemma user_fetch_failure_at_work :
  user_fetch_failed (trace (run userless (login url good) fresh)) = true
  /\ submission_accepted (trace (run userless (login url good) fresh)) = true
  /\ count_calls is_revoke (trace (run userless (login url good) fresh)) = 0
  /\ collab_calls (trace (run userless (login url good) fresh)) = []
  /\ store (final (run userless (login url good) fresh)) = store fresh
  /\ (exists e, outcome (run userless (login url good) fresh) = Err e
                /\ errors (trace (run userless (login url good) fresh)) = [e]).
Proof.
  assert (Hu : user_fetch_failed (trace (run userless (login url good) fresh))
               = true) by (vm_compute; reflexivity).
  split; [exact Hu |].
  exact (user_fetch_failure_orphans_session userless url good fresh Hu).
Defined.

Lemma only_logout_revokes_at_work :
  is_logout (OpLogin good) = false
  /\ account (store signed_in) <> None
  /\ count_calls is_revoke
       (trace (run online (perform (store signed_in) url (OpLogin good)) signed_in))
     = 0.
Proof.
  assert (Hop : is_logout (OpLogin good) = false) by reflexivity.
  split; [exact Hop |]. split; [discriminate |].
  exact (only_logout_revokes online url (store signed_in) (OpLogin good)
           signed_in Hop).
Defined.

Lemma restore_steps_at_work :
  is_ok (outcome (run online (restore url (Some member)) signed_in)) = true
  /\ exists user bookmarks progress,
       trace (run online (restore url (Some member)) signed_in) =
       [ Entry (Remote (GetUser url (Account.token member))) (Ok user);
         Entry (Remote (GetBookmarks url member)) (Ok bookmarks);
         Entry (Remote (GetProgress url member)) (Ok progress);
         Entry (Collab (SyncData user progress bookmarks)) (Ok tt) ].
Proof.
  assert (Hok : is_ok (outcome (run online (restore url (Some member)) signed_in))
                = true) by (vm_compute; reflexivity).
  split; [exact Hok |].
  exact (restore_steps online url member signed_in Hok).
Defined.

(** A login started on a render without account crossing a logout started on
    a render with one. *)
Lemma overlapping_operations_at_work :
  (calls_at_most (store signed_in) OpLogout <= turns false crossing
   /\ over (side false (interleave online crossing
                          (perform (store fresh) url (OpLogin good))
                          (perform (store signed_in) url OpLogout) signed_in))
      = true)
  /\ (returned (side true (interleave online crossing
                             (perform (store fresh) url (OpLogin good))
                             (perform (store signed_in) url OpLogout) signed_in))
      = true
      /\ count_calls is_collab
           (log_of true (log (interleave online crossing
                                (perform (store fresh) url (OpLogin good))
                                (perform (store signed_in) url OpLogout)
                                signed_in)))
         = collab_due (store fresh) (OpLogin good))
  /\ (side true (interleave offline crossing
                   (perform (store fresh) url (OpLogin good))
                   (perform (store signed_in) url OpLogout) signed_in)
      = Throw "NetworkError"
      /\ In "NetworkError"
           (errors (log_of true
              (log (interleave offline crossing
                      (perform (store fresh) url (OpLogin good))
                      (perform (store signed_in) url OpLogout) signed_in))))).
Proof.
  assert (H0 : calls_at_most (store signed_in) OpLogout <= turns false crossing)
    by (vm_compute; lia).
  assert (H1 : returned (side true (interleave online crossing
                                      (perform (store fresh) url (OpLogin good))
                                      (perform (store signed_in) url OpLogout)
                                      signed_in)) = true)
    by (vm_compute; reflexivity).
  assert (H2 : side true (interleave offline crossing
                            (perform (store fresh) url (OpLogin good))
                            (perform (store signed_in) url OpLogout) signed_in)
               = Throw "NetworkError")
    by (vm_compute; reflexivity).
  destruct (overlapping_operations_run_independently online url crossing
              (store fresh) (store signed_in) (OpLogin good) OpLogout signed_in
              false) as (Hover & _ & _).
  destruct (overlapping_operations_run_independently online url crossing
              (store fresh) (store signed_in) (OpLogin good) OpLogout signed_in
              true) as (_ & Hdue & _).
  destruct (overlapping_operations_run_independently offline url crossing
              (store fresh) (store signed_in) (OpLogin good) OpLogout signed_in
              true) as (_ & _ & Hthrown).
  split; [split; [exact H0 | exact (Hover H0)] |].
  split; [split; [exact H1 | exact (Hdue H1)] |].
  split; [exact H2 | exact (Hthrown _ H2)].
Defined.

(** Two logins with different mnemonics and private keys, the same public
    key and seed, and the same hand-over to the session store. *)
Lemma session_store_secrecy_at_work :
  (LoginData.mnemonic good <> LoginData.mnemonic other_good
   /\ privateKey keys <> privateKey reseeded_keys)
  /\ same_callback (OpLogin good) (OpLogin other_good)
  /\ map local_view
       (trace (run online (perform (store fresh) url (OpLogin good)) fresh))
     = map local_view
         (trace (run reseeded (perform (store signed_in) url (OpLogin other_good))
                   fresh))
  /\ collab_calls
       (trace (run online (perform (store fresh) url (OpLogin good)) fresh))
     = collab_calls
         (trace (run reseeded (perform (store signed_in) url (OpLogin other_good))
                   fresh)).
Proof.
  assert (Hop : same_callback (OpLogin good) (OpLogin other_good)) by exact I.
  assert (Hv : map local_view
                 (trace (run online (perform (store fresh) url (OpLogin good))
                           fresh))
               = map local_view
                   (trace (run reseeded
                             (perform (store signed_in) url (OpLogin other_good))
                             fresh))) by (vm_compute; reflexivity).
  split; [split; vm_compute; discriminate |].
  split; [exact Hop |]. split; [exact Hv |].
  exact (secrets_stay_out_of_session_store online reseeded url
           (store fresh) (store signed_in) (OpLogin good) (OpLogin other_good)
           fresh fresh Hop Hv).
Defined.
End FurtherAtWork.
